(** * Analytics aggregation ([getAnalyticsStats])

    A shallow embedding of the analytics module: the event and statistics
    records, the insertion-ordered [Map] used for counting, the stable
    [Array.prototype.sort], the query built for the event store, and the
    [try]/[catch] wrapper around the whole computation. *)

From Stdlib Require Import List String Ascii ZArith NArith PeanoNat Bool Lia.
From Stdlib Require Import DecimalString Sorted Permutation.
Import ListNotations.
Local Open Scope string_scope.

(** ** JavaScript values *)

(** The values a [meta] payload can hold once a row has been decoded: the
    JSON primitives, and a reference for a nested array or object (which
    [Map] keys by identity).  Numbers are the integer-valued ones. *)
Inductive jsval : Type :=
  | JNull
  | JBool (b : bool)
  | JNum (n : Z)
  | JStr (s : string)
  | JRef (addr : positive).

(** [meta: any | null]: an object read by property name. *)
Definition jsobject : Type := list (string * jsval).

(** ToBoolean on a string. *)
Definition truthy_string (s : string) : bool :=
  match s with
  | EmptyString => false
  | String _ _ => true
  end.

(** ToBoolean on a decoded value. *)
Definition truthy (v : jsval) : bool :=
  match v with
  | JNull => false
  | JBool b => b
  | JNum n => negb (n =? 0)%Z
  | JStr s => truthy_string s
  | JRef _ => true
  end.

(** SameValueZero, the key comparison of [Map]. *)
Definition sameValueZero (a b : jsval) : bool :=
  match a, b with
  | JNull, JNull => true
  | JBool x, JBool y => Bool.eqb x y
  | JNum x, JNum y => (x =? y)%Z
  | JStr x, JStr y => String.eqb x y
  | JRef x, JRef y => (x =? y)%positive
  | _, _ => false
  end.

(** Property read [o[name]]; [None] is [undefined]. *)
Fixpoint getProp (o : jsobject) (name : string) : option jsval :=
  match o with
  | [] => None
  | (k, v) :: o' => if String.eqb k name then Some v else getProp o' name
  end.

(** ** Records of the module *)

Record AnalyticsEvent : Type := {
  id : string;
  user_id : option string;
  device_id : option string;
  event_type : string;
  path : option string;
  meta : option jsobject;
  timestamp : string
}.

(** One element of a ranking list.  The source names the first field
    [path], [code], [brand], [userId] or [hour] depending on the list. *)
Record Counted (K : Type) : Type := mkCounted {
  key : K;
  count : nat
}.
Arguments mkCounted {K} _ _.
Arguments key {K} _.
Arguments count {K} _.

Record AnalyticsStats : Type := {
  totalPageViews : nat;
  totalSearches : nat;
  pageViews : list (Counted string);
  topSearchedCodes : list (Counted jsval);
  topBrands : list (Counted jsval);
  topUsers : list (Counted string);
  errorCodeFrequency : list (Counted jsval);
  activityByHour : list (Counted string)
}.

(** Optional chaining [e.meta?.name]. *)
Definition metaProp (e : AnalyticsEvent) (name : string) : option jsval :=
  match meta e with
  | None => None
  | Some o => getProp o name
  end.

(** ** [Map<K, number>] with insertion order *)

Section JsMap.
Context {K : Type}.
Variable same : K -> K -> bool.

Definition JsMap : Type := list (K * nat).

Fixpoint map_get (m : JsMap) (k : K) : option nat :=
  match m with
  | [] => None
  | (k', v) :: m' => if same k' k then Some v else map_get m' k
  end.

(** [set] overwrites in place, or appends a new entry at the end. *)
Fixpoint map_set (m : JsMap) (k : K) (v : nat) : JsMap :=
  match m with
  | [] => [(k, v)]
  | (k', v') :: m' =>
      if same k' k then (k', v) :: m' else (k', v') :: map_set m' k v
  end.

(** [x || 0] on the result of [get]. *)
Definition orZero (o : option nat) : nat :=
  match o with
  | Some c => c
  | None => 0
  end.

(** [m.set(k, (m.get(k) || 0) + 1)]. *)
Definition bump (m : JsMap) (k : K) : JsMap :=
  map_set m k (orZero (map_get m k) + 1).

(** [events.forEach((e) => { if (...) m.set(k, ...) })]: [sel e] is the
    key the loop body counts for [e], or [None] when its guard fails. *)
Definition countBy {E : Type} (sel : E -> option K) (events : list E)
  : JsMap :=
  fold_left
    (fun m e => match sel e with Some k => bump m k | None => m end)
    events [].

(** [Array.from(m.entries()).map(([k, count]) => ({ k, count }))]. *)
Definition entries (m : JsMap) : list (Counted K) :=
  map (fun kv => mkCounted (fst kv) (snd kv)) m.
End JsMap.

(** ** [Array.prototype.sort] *)

Section Sort.
Context {A : Type}.
Variable cmp : A -> A -> Z.

(** Stable insertion: [x] comes from before every element of [l]. *)
Fixpoint insertBy (x : A) (l : list A) : list A :=
  match l with
  | [] => [x]
  | y :: l' => if (cmp x y <=? 0)%Z then x :: l else y :: insertBy x l'
  end.

(** The sort is stable, so with a consistent comparator its result is
    the one of insertion sort. *)
Definition sortBy (l : list A) : list A := fold_right insertBy [] l.
End Sort.

(** [(a, b) => b.count - a.count]. *)
Definition byCountDesc {K : Type} (a b : Counted K) : Z :=
  Z.of_nat (count b) - Z.of_nat (count a).

(** [.sort((a, b) => b.count - a.count).slice(0, n)]. *)
Definition ranked {K : Type} (n : nat) (l : list (Counted K))
  : list (Counted K) :=
  firstn n (sortBy byCountDesc l).

(** [l.reduce((sum, c) => sum + c.count, 0)]. *)
Definition sumCounts {K : Type} (l : list (Counted K)) : nat :=
  fold_left (fun sum c => sum + count c) l 0.

(** ** Guards of the six counting loops *)

(** [if (e.path)]. *)
Definition pathKey (e : AnalyticsEvent) : option string :=
  match path e with
  | Some p => if truthy_string p then Some p else None
  | None => None
  end.

(** A guard [if (e.meta?.name)], yielding the counted key. *)
Definition metaKey (name : string) (e : AnalyticsEvent) : option jsval :=
  match metaProp e name with
  | Some v => if truthy v then Some v else None
  | None => None
  end.

(** [if (e.event_type === "search" && e.meta?.code)]. *)
Definition searchKey (e : AnalyticsEvent) : option jsval :=
  if String.eqb (event_type e) "search" then metaKey "code" e else None.

(** [if (e.meta?.brand)]. *)
Definition brandKey (e : AnalyticsEvent) : option jsval := metaKey "brand" e.

(** [if (e.user_id)]. *)
Definition userKey (e : AnalyticsEvent) : option string :=
  match user_id e with
  | Some u => if truthy_string u then Some u else None
  | None => None
  end.

(** [if (e.meta?.errorCode)]. *)
Definition errorKey (e : AnalyticsEvent) : option jsval :=
  metaKey "errorCode" e.

(** The template literal [`${h}:00`]; [None] is the [NaN] of an invalid
    date. *)
Definition formatHour (h : option nat) : string :=
  match h with
  | Some n => NilEmpty.string_of_uint (Nat.to_uint n) ++ ":00"
  | None => "NaN:00"
  end.

(** ** The query sent to the event store *)

Inductive Filter : Type :=
  | Gte (column value : string)
  | Lte (column value : string).

Record Query : Type := {
  q_table : string;
  q_select : string;
  q_order : string * bool;
  q_filters : list Filter
}.

Definition addFilter (f : Filter) (q : Query) : Query :=
  {| q_table := q_table q; q_select := q_select q; q_order := q_order q;
     q_filters := q_filters q ++ [f] |}.

(** The [filters] argument of [getAnalyticsStats]. *)
Record Filters : Type := {
  startDate : option string;
  endDate : option string;
  eventType : option string
}.

(** [filters?.field], tested for truthiness. *)
Definition given (filters : option Filters)
  (field : Filters -> option string) : option string :=
  match filters with
  | Some f =>
      match field f with
      | Some s => if truthy_string s then Some s else None
      | None => None
      end
  | None => None
  end.

Definition baseQuery : Query :=
  {| q_table := "app_analytics"; q_select := "*";
     q_order := ("timestamp", false); q_filters := [] |}.

Definition buildQuery (filters : option Filters) : Query :=
  let query := baseQuery in
  let query :=
    match given filters startDate with
    | Some s => addFilter (Gte "timestamp" s) query
    | None => query
    end in
  match given filters endDate with
  | Some s => addFilter (Lte "timestamp" s) query
  | None => query
  end.

(** An error object, as the store client reports or throws it. *)
Record ErrorObject : Type := { message : string }.

(** What [await query] gives: the [{ data, error }] pair, either of which
    may be [null], or an exception. *)
Inductive Awaited : Type :=
  | Resolved (data : option (list AnalyticsEvent))
      (error : option ErrorObject)
  | Raised (reason : ErrorObject).

(** Completion of a block, and settlement of the returned promise. *)
Inductive Completion (A : Type) : Type :=
  | Normal (a : A)
  | Throw (reason : ErrorObject).
Arguments Normal {A} _.
Arguments Throw {A} _.

Definition bind {A B : Type} (c : Completion A) (k : A -> Completion B)
  : Completion B :=
  match c with
  | Normal a => k a
  | Throw r => Throw r
  end.

Notation "x <- c ;; k" := (bind c (fun x => k))
  (at level 61, c at next level, right associativity).

Definition tryCatch {A : Type} (body : Completion A)
  (handler : ErrorObject -> Completion A) : Completion A :=
  match body with
  | Normal a => Normal a
  | Throw r => handler r
  end.

(** ** The aggregation *)

Section Analytics.
(** [new Date(ts).getHours()] in the time zone of the process; [None]
    is [NaN]. *)
Variable getHours : string -> option nat.
(** The weight the host collation gives a character. *)
Variable collationWeight : ascii -> N.
(** The store client answering a query. *)
Variable client : Query -> Awaited.

(** [a.localeCompare(b)] on hour labels: character by character, by
    collation weight, a proper prefix first. *)
Fixpoint localeCompare (a b : string) : Z :=
  match a, b with
  | EmptyString, EmptyString => 0
  | EmptyString, String _ _ => -1
  | String _ _, EmptyString => 1
  | String x a', String y b' =>
      match (collationWeight x ?= collationWeight y)%N with
      | Lt => -1
      | Gt => 1
      | Eq => localeCompare a' b'
      end
  end.

(** [(a, b) => a.hour.localeCompare(b.hour)]. *)
Definition byHour (a b : Counted string) : Z :=
  localeCompare (key a) (key b).

(** The key of the hour loop, which has no guard. *)
Definition hourKey (e : AnalyticsEvent) : option string :=
  Some (formatHour (getHours (timestamp e))).

(** The body of the [try] block from [const events] on. *)
Definition aggregate (events : list AnalyticsEvent) : AnalyticsStats :=
  let pageViewMap := countBy String.eqb pathKey events in
  let pageViews := ranked 10 (entries pageViewMap) in
  let searchMap := countBy sameValueZero searchKey events in
  let topSearchedCodes := ranked 10 (entries searchMap) in
  let brandMap := countBy sameValueZero brandKey events in
  let topBrands := ranked 10 (entries brandMap) in
  let userMap := countBy String.eqb userKey events in
  let topUsers := ranked 10 (entries userMap) in
  let errorMap := countBy sameValueZero errorKey events in
  let errorCodeFrequency := ranked 15 (entries errorMap) in
  let hourMap := countBy String.eqb hourKey events in
  let activityByHour := sortBy byHour (entries hourMap) in
  {| totalPageViews := List.length events;
     totalSearches := sumCounts topSearchedCodes;
     pageViews := pageViews;
     topSearchedCodes := topSearchedCodes;
     topBrands := topBrands;
     topUsers := topUsers;
     errorCodeFrequency := errorCodeFrequency;
     activityByHour := activityByHour |}.

(** The object returned by the [catch] block. *)
Definition zeroStats : AnalyticsStats :=
  {| totalPageViews := 0; totalSearches := 0; pageViews := [];
     topSearchedCodes := []; topBrands := []; topUsers := [];
     errorCodeFrequency := []; activityByHour := [] |}.

(** [const { data, error } = await query; if (error) throw error;
    const events = data || []]. *)
Definition fetchEvents (q : Query) : Completion (list AnalyticsEvent) :=
  match client q with
  | Raised r => Throw r
  | Resolved _ (Some err) => Throw err
  | Resolved (Some rows) None => Normal rows
  | Resolved None None => Normal []
  end.

Definition getAnalyticsStats (filters : option Filters)
  : Completion AnalyticsStats :=
  tryCatch
    (events <- fetchEvents (buildQuery filters) ;;
     Normal (aggregate events))
    (fun _ => Normal zeroStats).

Definition getAnalyticsForDateRange (startDate endDate : string)
  : Completion AnalyticsStats :=
  getAnalyticsStats
    (Some {| startDate := Some startDate; endDate := Some endDate;
             eventType := None |}).
End Analytics.

(** ** Vocabulary of the statements *)

Section Discovery.
Context {E K : Type}.
Variable same : K -> K -> bool.
Variable sel : E -> option K.

(** The loop body counts [e] under the key [k]. *)
Definition selects (k : K) (e : E) : bool :=
  match sel e with
  | Some k' => same k' k
  | None => false
  end.

(** How many events of the input are counted under [k]. *)
Definition occurrences (k : K) (events : list E) : nat :=
  List.length (filter (selects k) events).

(** Position, in delivery order, of the first event counted under [k]
    (the length of the input when there is none). *)
Fixpoint firstSeen (k : K) (events : list E) : nat :=
  match events with
  | [] => 0
  | e :: events' =>
      if selects k e then 0 else S (firstSeen k events')
  end.

(** The tie-break rule on an output list [out]: of two entries with the
    same count, the one placed first has the key discovered first. *)
Definition tieBreak (events : list E) (out : list (Counted K)) : Prop :=
  forall i j a b,
    i < j ->
    nth_error out i = Some a ->
    nth_error out j = Some b ->
    count a = count b ->
    firstSeen (key a) events < firstSeen (key b) events.
End Discovery.

(** [a] stands before [b] in [l]. *)
Fixpoint before {A : Type} (a b : A) (l : list A) : Prop :=
  match l with
  | [] => False
  | x :: l' => (x = a /\ In b l') \/ before a b l'
  end.

(** Counts never go up along the list. *)
Definition nonIncreasing {K : Type} (l : list (Counted K)) : Prop :=
  StronglySorted (fun a b => count b <= count a) l.

Definition positiveCounts {K : Type} (l : list (Counted K)) : Prop :=
  Forall (fun a => 0 < count a) l.


(** ** Concrete hosts for the examples *)

Definition digitOf (c : ascii) : option nat :=
  let n := nat_of_ascii c in
  if ((48 <=? n) && (n <=? 57))%nat then Some (n - 48) else None.

(** [getHours] of a process running in UTC, on ISO-8601 timestamps
    ([YYYY-MM-DDTHH:...]): the two digits after the [T]. *)
Definition utcHours (ts : string) : option nat :=
  match String.get 11 ts, String.get 12 ts with
  | Some a, Some b =>
      match digitOf a, digitOf b with
      | Some x, Some y =>
          if (10 * x + y <? 24)%nat then Some (10 * x + y) else None
      | _, _ => None
      end
  | _, _ => None
  end.

(** A collation that, like the CLDR root one, puts punctuation before
    digits, digits before letters, and a letter next to its other case. *)
Definition rootWeight (c : ascii) : N :=
  let n := N_of_ascii c in
  if (48 <=? n)%N && (n <=? 57)%N then 1000 + n
  else if (65 <=? n)%N && (n <=? 90)%N then 2000 + 2 * (n - 65) + 1
  else if (97 <=? n)%N && (n <=? 122)%N then 2000 + 2 * (n - 97)
  else n.

(** A store client that answers every query with the same rows. *)
Definition serving (rows : list AnalyticsEvent) (q : Query) : Awaited :=
  Resolved (Some rows) None.

(** A store client whose request fails with an error object. *)
Definition failing (msg : string) (q : Query) : Awaited :=
  Resolved None (Some {| message := msg |}).

(** A store client whose request throws. *)
Definition throwing (msg : string) (q : Query) : Awaited :=
  Raised {| message := msg |}.

Definition event (uid : option string) (type : string) (p : option string)
  (m : option jsobject) (ts : string) : AnalyticsEvent :=
  {| id := ""; user_id := uid; device_id := None; event_type := type;
     path := p; meta := m; timestamp := ts |}.

Definition searchOf (code : string) : AnalyticsEvent :=
  event None "search" None (Some [("code", JStr code)])
    "2024-03-05T12:00:00.000Z".

Definition viewAt (p ts : string) : AnalyticsEvent :=
  event None "page_view" (Some p) None ts.

Definition byUser (uid : option string) : AnalyticsEvent :=
  event uid "click" None None "2024-03-05T12:00:00.000Z".

Definition elevenCodes : list string :=
  ["E01"; "E02"; "E03"; "E04"; "E05"; "E06"; "E07"; "E08"; "E09"; "E10";
   "E11"].

(** Eleven searches with distinct codes and one page view. *)
Definition twelveEvents : list AnalyticsEvent :=
  map searchOf elevenCodes ++ [viewAt "/home" "2024-03-05T12:00:00.000Z"].

(** Three views of ["/x"] at the local hours 9, 10 and 2. *)
Definition threeHours : list AnalyticsEvent :=
  [viewAt "/x" "2024-03-05T09:15:00.000Z";
   viewAt "/x" "2024-03-05T10:15:00.000Z";
   viewAt "/x" "2024-03-05T02:15:00.000Z"].

(** Two users with five events each around a hundred anonymous events. *)
Definition usersAndAnonymous : list AnalyticsEvent :=
  repeat (byUser (Some "u1")) 5 ++ repeat (byUser None) 100
    ++ repeat (byUser (Some "u2")) 5.

(** Two views in the hour 9 followed by one in the hour 10. *)
Definition busyNine : list AnalyticsEvent :=
  [viewAt "/x" "2024-03-05T09:15:00.000Z";
   viewAt "/x" "2024-03-05T09:45:00.000Z";
   viewAt "/x" "2024-03-05T10:15:00.000Z"].

(** The label the hour loop gives an event. *)
Definition hourLabel (getHours : string -> option nat) (e : AnalyticsEvent)
  : string :=
  formatHour (getHours (timestamp e)).

(** A request for search events only. *)
Definition searchesOnly : option Filters :=
  Some {| startDate := None; endDate := None; eventType := Some "search" |}.

(** The event is a search event. *)
Definition isSearch (e : AnalyticsEvent) : bool :=
  String.eqb (event_type e) "search".

(** The event has a user ([user_id] is not [null]). *)
Definition hasUserId (e : AnalyticsEvent) : bool :=
  match user_id e with
  | Some _ => true
  | None => false
  end.

(** A property that is absent, or present with one of the values [""],
    [0] and [false]. *)
Definition absentOrEmpty (o : option jsval) : Prop :=
  In o [None; Some (JStr ""); Some (JNum 0); Some (JBool false)].

(** An event whose selecting fields are all present and falsy. *)
Definition emptyFields : AnalyticsEvent :=
  event (Some "") "search" (Some "")
    (Some [("code", JStr ""); ("brand", JNum 0); ("errorCode", JBool false)])
    "2024-03-05T12:00:00.000Z".

(** Views of two paths, ["/a"] first. *)
Definition twoPaths : list AnalyticsEvent :=
  [viewAt "/a" "2024-03-05T12:00:00.000Z";
   viewAt "/b" "2024-03-05T12:00:00.000Z"].


(** ** Event tracking *)

(** [window.localStorage]. *)
Definition Storage : Type := list (string * string).

Fixpoint getItem (st : Storage) (name : string) : option string :=
  match st with
  | [] => None
  | (k, v) :: st' => if String.eqb k name then Some v else getItem st' name
  end.

Fixpoint setItem (st : Storage) (name value : string) : Storage :=
  match st with
  | [] => [(name, value)]
  | (k, v) :: st' =>
      if String.eqb k name then (k, value) :: st'
      else (k, v) :: setItem st' name value
  end.

Record Window : Type := {
  localStorage : Storage;
  pathname : string
}.

(** What [await supabase.auth.getUser()] gives: the user of the session
    ([None] when signed out, else its [id]), or an exception. *)
Inductive AuthOutcome : Type :=
  | Session (user : option string)
  | AuthRaised (reason : ErrorObject).

(** The object handed to [insert]. *)
Record EventRow : Type := {
  row_user_id : option string;
  row_device_id : option string;
  row_event_type : string;
  row_path : string;
  row_meta : option jsobject;
  row_timestamp : string
}.

(** What the tracking code reads and writes: the global [window] ([None]
    when [typeof window] is ["undefined"]), the session, the clock, the
    random source, the insert endpoint and the console. *)
Record World : Type := {
  window : option Window;
  auth : AuthOutcome;
  dateNow : N;
  isoNow : string;
  randomSuffix : string;
  insertRaises : option ErrorObject;
  sent : list EventRow;
  logged : list string
}.

Definition withWindow (win : Window) (w : World) : World :=
  {| window := Some win; auth := auth w; dateNow := dateNow w;
     isoNow := isoNow w; randomSuffix := randomSuffix w;
     insertRaises := insertRaises w; sent := sent w; logged := logged w |}.

Definition withSent (rows : list EventRow) (w : World) : World :=
  {| window := window w; auth := auth w; dateNow := dateNow w;
     isoNow := isoNow w; randomSuffix := randomSuffix w;
     insertRaises := insertRaises w; sent := rows; logged := logged w |}.

Definition withLogged (msgs : list string) (w : World) : World :=
  {| window := window w; auth := auth w; dateNow := dateNow w;
     isoNow := isoNow w; randomSuffix := randomSuffix w;
     insertRaises := insertRaises w; sent := sent w; logged := msgs |}.

(** An [async] body: it runs on the world and completes or throws. *)
Definition Action (A : Type) : Type := World -> Completion A * World.

Definition ret {A : Type} (a : A) : Action A := fun w => (Normal a, w).

Definition andThen {A B : Type} (c : Action A) (k : A -> Action B)
  : Action B :=
  fun w =>
    match c w with
    | (Normal a, w') => k a w'
    | (Throw e, w') => (Throw e, w')
    end.

Notation "x <~ c ;; k" := (andThen c (fun x => k))
  (at level 61, c at next level, right associativity).

Definition tryCatchA {A : Type} (body : Action A)
  (handler : ErrorObject -> Action A) : Action A :=
  fun w =>
    match body w with
    | (Normal a, w') => (Normal a, w')
    | (Throw e, w') => handler e w'
    end.

(** The [ReferenceError] of reading [window] where there is none. *)
Definition referenceError : ErrorObject :=
  {| message := "window is not defined" |}.

(** A use of the identifier [window]. *)
Definition theWindow : Action Window :=
  fun w =>
    match window w with
    | Some win => (Normal win, w)
    | None => (Throw referenceError, w)
    end.

(** [window.localStorage.setItem(name, value)]. *)
Definition storeItem (name value : string) : Action unit :=
  win <~ theWindow ;;
  fun w =>
    (Normal tt,
     withWindow {| localStorage := setItem (localStorage win) name value;
                   pathname := pathname win |} w).

(** A stored value that passes a truthiness test. *)
Definition truthyItem (o : option string) : option string :=
  match o with
  | Some v => if truthy_string v then Some v else None
  | None => None
  end.

(** [`device_${Date.now()}_${Math.random().toString(36).substr(2, 9)}`]. *)
Definition newDeviceId (w : World) : string :=
  "device_" ++ NilEmpty.string_of_uint (N.to_uint (dateNow w)) ++ "_"
    ++ randomSuffix w.

Definition generateDeviceId : Action string :=
  win <~ theWindow ;;
  match truthyItem (getItem (localStorage win) "device_id") with
  | Some deviceId => ret deviceId
  | None =>
      fun w =>
        let deviceId := newDeviceId w in
        (_ <~ storeItem "device_id" deviceId ;; ret deviceId) w
  end.

(** [await supabase.auth.getUser()], destructured to [user]. *)
Definition getUser : Action (option string) :=
  fun w =>
    match auth w with
    | Session user => (Normal user, w)
    | AuthRaised e => (Throw e, w)
    end.

(** [typeof window !== "undefined"
      ? window.localStorage.getItem("device_id") || generateDeviceId()
      : null]. *)
Definition currentDeviceId : Action (option string) :=
  fun w =>
    match window w with
    | Some win =>
        match truthyItem (getItem (localStorage win) "device_id") with
        | Some deviceId => (Normal (Some deviceId), w)
        | None => (deviceId <~ generateDeviceId ;; ret (Some deviceId)) w
        end
    | None => (Normal None, w)
    end.

(** [path || window.location.pathname]. *)
Definition pathOrLocation (path : option string) : Action string :=
  match truthyItem path with
  | Some p => ret p
  | None => win <~ theWindow ;; ret (pathname win)
  end.

(** [new Date().toISOString()]. *)
Definition toISOString : Action string := fun w => (Normal (isoNow w), w).

(** [await supabase.from("app_analytics").insert([row])]; the answer is
    not looked at. *)
Definition insert (row : EventRow) : Action unit :=
  fun w =>
    match insertRaises w with
    | Some e => (Throw e, w)
    | None => (Normal tt, withSent (sent w ++ [row])%list w)
    end.

Definition consoleError (msg : string) : Action unit :=
  fun w => (Normal tt, withLogged (logged w ++ [msg])%list w).

Definition trackEvent (eventType : string) (path : option string)
  (meta : option jsobject) : Action unit :=
  tryCatchA
    (user <~ getUser ;;
     deviceId <~ currentDeviceId ;;
     p <~ pathOrLocation path ;;
     ts <~ toISOString ;;
     insert {| row_user_id := truthyItem user;
               row_device_id := deviceId;
               row_event_type := eventType;
               row_path := p;
               row_meta := meta;
               row_timestamp := ts |})
    (fun error => consoleError "Failed to track event:").

Definition trackPageView (path : string) : Action unit :=
  trackEvent "page_view" (Some path) None.

(** [{ code, brand }]; a property whose value is [undefined] is left out
    when the row is serialised. *)
Definition searchMeta (code : string) (brand : option string) : jsobject :=
  match brand with
  | Some b => [("code", JStr code); ("brand", JStr b)]
  | None => [("code", JStr code)]
  end.

Definition trackSearch (code : string) (brand : option string)
  : Action unit :=
  trackEvent "search" None (Some (searchMeta code brand)).

(** Assignment of one property: in place, or as a new last one. *)
Fixpoint setProp (o : jsobject) (name : string) (v : jsval) : jsobject :=
  match o with
  | [] => [(name, v)]
  | (k, v') :: o' =>
      if String.eqb k name then (k, v) :: o'
      else (k, v') :: setProp o' name v
  end.

(** [{ ...o, ...extra }]. *)
Definition spread (o : jsobject) (extra : option jsobject) : jsobject :=
  match extra with
  | Some m => fold_left (fun acc kv => setProp acc (fst kv) (snd kv)) m o
  | None => o
  end.

Definition trackClick (label : string) (meta : option jsobject)
  : Action unit :=
  trackEvent "click" None (Some (spread [("label", JStr label)] meta)).

Definition trackErrorCodeView (code systemName : string) : Action unit :=
  trackEvent "error_code_view" None
    (Some [("errorCode", JStr code); ("systemName", JStr systemName)]).

(** A sent row as a later [select("*")] returns it, under the [id] the
    table gave it. *)
Definition stored (rowId : string) (r : EventRow) : AnalyticsEvent :=
  {| id := rowId; user_id := row_user_id r; device_id := row_device_id r;
     event_type := row_event_type r; path := Some (row_path r);
     meta := row_meta r; timestamp := row_timestamp r |}.

(** ** Further vocabulary *)

(** The guard of a counting loop lets the event through. *)
Definition guarded {E K : Type} (sel : E -> option K) (e : E) : bool :=
  match sel e with
  | Some _ => true
  | None => false
  end.

(** Every entry carries the number of events counted under its key. *)
Definition exactCounts {E K : Type} (same : K -> K -> bool)
  (sel : E -> option K) (events : list E) (out : list (Counted K)) : Prop :=
  Forall (fun a => count a = occurrences same sel (key a) events) out.

(** No key left out of the list was counted more often than one in it. *)
Definition dominates {E K : Type} (same : K -> K -> bool)
  (sel : E -> option K) (events : list E) (out : list (Counted K)) : Prop :=
  forall a k,
    In a out -> ~ In k (map key out) ->
    occurrences same sel k events <= count a.

(** Every key some event is counted under has an entry. *)
Definition covers {E K : Type} (sel : E -> option K) (events : list E)
  (out : list (Counted K)) : Prop :=
  forall e k, In e events -> sel e = Some k -> In k (map key out).

(** The tie-break rule at the cut of an output list [out]: a key counted
    as often as an entry of the list and discovered before its key has an
    entry too, placed before it. *)
Definition tieKept {E K : Type} (same : K -> K -> bool)
  (sel : E -> option K) (events : list E) (out : list (Counted K)) : Prop :=
  forall j b k,
    nth_error out j = Some b ->
    occurrences same sel k events = count b ->
    firstSeen same sel k events < firstSeen same sel (key b) events ->
    exists i a,
      i < j /\ nth_error out i = Some a /\ key a = k /\ count a = count b.

(** The events are counted under at most [n] different keys. *)
Definition fewKeys {E K : Type} (sel : E -> option K) (events : list E)
  (n : nat) : Prop :=
  exists ks, List.length ks <= n
             /\ forall e k, In e events -> sel e = Some k -> In k ks.

(** The device id a call works with, made in the world [w] whose window
    is [win]: the stored one when it is truthy, else a new one. *)
Definition deviceIdOf (win : Window) (w : World) : string :=
  match truthyItem (getItem (localStorage win) "device_id") with
  | Some d => d
  | None => newDeviceId w
  end.

(** The world [w] once that id is in the storage of its window [win]. *)
Definition remembering (win : Window) (w : World) : World :=
  match truthyItem (getItem (localStorage win) "device_id") with
  | Some _ => w
  | None =>
      withWindow
        {| localStorage :=
             setItem (localStorage win) "device_id" (newDeviceId w);
           pathname := pathname win |} w
  end.

(** The session is read, the insert does not throw, and there is a
    window or a truthy path. *)
Definition delivers (path : option string) (w : World) : bool :=
  match auth w, insertRaises w with
  | Session _, None =>
      match window w, truthyItem path with
      | None, None => false
      | _, _ => true
      end
  | _, _ => false
  end.

(** The dates of a request, with no event type. *)
Definition between (s e : option string) : option Filters :=
  Some {| startDate := s; endDate := e; eventType := None |}.

(** The value a spread of [extra] assigns to [name]: the last one it
    holds for it. *)
Definition assigned (extra : option jsobject) (name : string)
  : option jsval :=
  match extra with
  | Some m => getProp (rev m) name
  | None => None
  end.

(** The path a row gets: the given one when truthy, else the location. *)
Definition pathOr (path : option string) (win : Window) : string :=
  match truthyItem path with
  | Some p => p
  | None => pathname win
  end.

(** The window of the example browser. *)
Definition browserWindow : Window :=
  {| localStorage := []; pathname := "/codes" |}.

(** A browser world and a world without [window], for the examples. *)
Definition browser : World :=
  {| window := Some browserWindow;
     auth := Session (Some "u1"); dateNow := 1709640000000;
     isoNow := "2024-03-05T12:00:00.000Z"; randomSuffix := "k3j9x0q2a";
     insertRaises := None; sent := []; logged := [] |}.

Definition server : World :=
  {| window := None; auth := Session None; dateNow := 1709640000000;
     isoNow := "2024-03-05T12:00:00.000Z"; randomSuffix := "k3j9x0q2a";
     insertRaises := None; sent := []; logged := [] |}.

(** * Properties *)

Local Open Scope list_scope.
Local Open Scope nat_scope.

(** ** The counting map *)

Section JsMapFacts.
Context {K : Type}.
Variable same : K -> K -> bool.
Hypothesis same_spec : forall a b, same a b = true <-> a = b.

Lemma same_refl (k : K) : same k k = true.
Proof. now apply same_spec. Qed.

Lemma same_neq (a b : K) : a <> b -> same a b = false.
Proof.
  intros Hne. destruct (same a b) eqn:E; [|reflexivity].
  apply same_spec in E. contradiction.
Qed.

Lemma map_get_set (m : JsMap) (k k' : K) (v : nat) :
  map_get same (map_set same m k v) k'
  = if same k k' then Some v else map_get same m k'.
Proof.
  induction m as [|[k0 v0] m IH]; simpl; [reflexivity|].
  destruct (same k0 k) eqn:E; simpl.
  - apply same_spec in E; subst k0. now destruct (same k k').
  - destruct (same k0 k') eqn:E'; [|exact IH].
    apply same_spec in E'; subst k'.
    destruct (same k k0) eqn:E2; [|reflexivity].
    apply same_spec in E2; subst k0.
    rewrite same_refl in E. discriminate.
Qed.

Lemma keys_set_in (m : JsMap) (k : K) (v : nat) :
  In k (map fst m) -> map fst (map_set same m k v) = map fst m.
Proof.
  induction m as [|[k0 v0] m IH]; simpl; [tauto|].
  intros Hin. destruct (same k0 k) eqn:E; simpl; [reflexivity|].
  f_equal. apply IH. destruct Hin as [->|Hin]; [|exact Hin].
  rewrite same_refl in E. discriminate.
Qed.

Lemma keys_set_notin (m : JsMap) (k : K) (v : nat) :
  ~ In k (map fst m) -> map fst (map_set same m k v) = map fst m ++ [k].
Proof.
  induction m as [|[k0 v0] m IH]; simpl; [reflexivity|].
  intros Hnin. rewrite same_neq by tauto. simpl.
  f_equal. apply IH. tauto.
Qed.

Lemma map_get_none (m : JsMap) (k : K) :
  map_get same m k = None <-> ~ In k (map fst m).
Proof.
  induction m as [|[k0 v0] m IH]; simpl; [tauto|].
  destruct (same k0 k) eqn:E.
  - apply same_spec in E. split; [discriminate|tauto].
  - rewrite IH. split; [|tauto].
    intros Hnin [->|Hin]; [|tauto].
    rewrite same_refl in E. discriminate.
Qed.

Lemma map_get_some_key (m : JsMap) (k : K) (c : nat) :
  map_get same m k = Some c -> In k (map fst m).
Proof.
  induction m as [|[k0 v0] m IH]; simpl; [discriminate|].
  destruct (same k0 k) eqn:E; [|tauto].
  apply same_spec in E. tauto.
Qed.

Lemma map_get_in (m : JsMap) (k : K) (c : nat) :
  In (k, c) m -> NoDup (map fst m) -> map_get same m k = Some c.
Proof.
  induction m as [|[k0 v0] m IH]; simpl; [tauto|].
  intros [Heq|Hin] Hnd; inversion Hnd as [|? ? Hnin Hnd']; subst.
  - inversion Heq; subst. now rewrite same_refl.
  - rewrite same_neq; [now apply IH|].
    intros ->. apply Hnin. now apply (in_map fst) in Hin.
Qed.

Section Counting.
Context {E : Type}.
Variable sel : E -> option K.

Lemma countBy_snoc (l : list E) (e : E) :
  countBy same sel (l ++ [e])
  = match sel e with
    | Some k => bump same (countBy same sel l) k
    | None => countBy same sel l
    end.
Proof. unfold countBy. now rewrite fold_left_app. Qed.

Lemma occurrences_snoc (k : K) (l : list E) (e : E) :
  occurrences same sel k (l ++ [e])
  = occurrences same sel k l + (if selects same sel k e then 1 else 0).
Proof.
  unfold occurrences. rewrite filter_app, length_app. simpl.
  now destruct (selects same sel k e).
Qed.

(** The map holds, for each key, the number of events counted under
    it, and no entry for a key never counted. *)
Lemma map_get_countBy (l : list E) (k : K) :
  map_get same (countBy same sel l) k
  = if occurrences same sel k l =? 0 then None
    else Some (occurrences same sel k l).
Proof.
  induction l as [|e l IH] using rev_ind; [reflexivity|].
  rewrite countBy_snoc, occurrences_snoc. unfold selects.
  destruct (sel e) as [k0|].
  - unfold bump. rewrite map_get_set.
    destruct (same k0 k) eqn:Hs.
    + apply same_spec in Hs; subst k0. rewrite IH.
      destruct (occurrences same sel k l) as [|n] eqn:Hn; simpl.
      * reflexivity.
      * replace (n + 1 =? 0) with false
          by (symmetry; apply Nat.eqb_neq; lia).
        reflexivity.
    + rewrite Nat.add_0_r. exact IH.
  - rewrite Nat.add_0_r. exact IH.
Qed.

Lemma keys_countBy_NoDup (l : list E) :
  NoDup (map fst (countBy same sel l)).
Proof.
  induction l as [|e l IH] using rev_ind; [constructor|].
  rewrite countBy_snoc. destruct (sel e) as [k0|]; [|exact IH].
  unfold bump.
  destruct (map_get same (countBy same sel l) k0) as [c|] eqn:G.
  - rewrite keys_set_in; [exact IH|].
    eapply map_get_some_key; exact G.
  - apply map_get_none in G. rewrite keys_set_notin by exact G.
    apply NoDup_app; [exact IH|repeat constructor; simpl; tauto|].
    intros x Hx [<-|[]]. contradiction.
Qed.

Lemma key_countBy_iff (l : list E) (k : K) :
  In k (map fst (countBy same sel l)) <-> occurrences same sel k l <> 0.
Proof.
  pose proof (map_get_none (countBy same sel l) k) as Hn.
  rewrite map_get_countBy in Hn.
  destruct (Nat.eqb_spec (occurrences same sel k l) 0) as [Hz|Hz].
  - split; [|tauto]. intros Hin. exfalso. now apply Hn.
  - split; [tauto|]. intros _.
    destruct (map_get same (countBy same sel l) k) as [c|] eqn:G.
    + eapply map_get_some_key; exact G.
    + rewrite map_get_countBy in G.
      destruct (Nat.eqb_spec (occurrences same sel k l) 0);
        [contradiction|discriminate].
Qed.

(** An entry of the map carries the number of events counted under
    its key, which is at least one. *)
Lemma entry_countBy (l : list E) (k : K) (c : nat) :
  In (k, c) (countBy same sel l) ->
  c = occurrences same sel k l /\ 0 < c.
Proof.
  intros Hin.
  pose proof (map_get_in _ _ _ Hin (keys_countBy_NoDup l)) as G.
  rewrite map_get_countBy in G.
  destruct (Nat.eqb_spec (occurrences same sel k l) 0);
    [discriminate|].
  inversion G. lia.
Qed.

Lemma firstSeen_le (k : K) (l : list E) :
  firstSeen same sel k l <= List.length l.
Proof.
  induction l as [|e l IH]; simpl; [lia|].
  destruct (selects same sel k e); lia.
Qed.

Lemma firstSeen_lt_iff (k : K) (l : list E) :
  firstSeen same sel k l < List.length l
  <-> occurrences same sel k l <> 0.
Proof.
  unfold occurrences. induction l as [|e l IH]; simpl; [lia|].
  destruct (selects same sel k e); simpl; lia.
Qed.

Lemma firstSeen_snoc (k : K) (l : list E) (e : E) :
  firstSeen same sel k (l ++ [e])
  = if firstSeen same sel k l <? List.length l
    then firstSeen same sel k l
    else if selects same sel k e then List.length l
         else S (List.length l).
Proof.
  induction l as [|x l IH]; simpl.
  - now destruct (selects same sel k e).
  - destruct (selects same sel k x); [reflexivity|].
    rewrite IH.
    change (S (firstSeen same sel k l) <? S (List.length l))
      with (firstSeen same sel k l <? List.length l).
    destruct (firstSeen same sel k l <? List.length l);
      [reflexivity|].
    now destruct (selects same sel k e).
Qed.

Lemma firstSeen_known (k : K) (l : list E) (e : E) :
  In k (map fst (countBy same sel l)) ->
  firstSeen same sel k (l ++ [e]) = firstSeen same sel k l
  /\ firstSeen same sel k l < List.length l.
Proof.
  intros Hin. apply key_countBy_iff, firstSeen_lt_iff in Hin.
  rewrite firstSeen_snoc.
  destruct (Nat.ltb_spec (firstSeen same sel k l) (List.length l));
    [tauto|lia].
Qed.

Lemma firstSeen_new (k : K) (l : list E) (e : E) :
  ~ In k (map fst (countBy same sel l)) ->
  sel e = Some k ->
  firstSeen same sel k (l ++ [e]) = List.length l.
Proof.
  intros Hnin He. rewrite key_countBy_iff, <- firstSeen_lt_iff in Hnin.
  rewrite firstSeen_snoc. unfold selects. rewrite He, same_refl.
  destruct (Nat.ltb_spec (firstSeen same sel k l) (List.length l));
    [contradiction|reflexivity].
Qed.
End Counting.
End JsMapFacts.

(** ** Relative position in a list *)

Section Before.
Context {A : Type}.

Lemma before_in (a b : A) (l : list A) :
  before a b l -> In a l /\ In b l.
Proof.
  induction l as [|x l IH]; simpl; [tauto|].
  intros [[-> Hb]|H]; [tauto|]. apply IH in H. tauto.
Qed.

Lemma before_snoc (a b x : A) (l : list A) :
  before a b (l ++ [x]) -> before a b l \/ (In a l /\ b = x).
Proof.
  induction l as [|y l IH]; simpl; [tauto|].
  intros [[-> Hb]|H].
  - apply in_app_or in Hb. simpl in Hb.
    destruct Hb as [Hb|[<-|[]]]; [tauto|]. right. tauto.
  - apply IH in H. tauto.
Qed.

Lemma before_map {B : Type} (f : A -> B) (a b : A) (l : list A) :
  before a b l -> before (f a) (f b) (map f l).
Proof.
  induction l as [|x l IH]; simpl; [tauto|].
  intros [[-> Hb]|H]; [left|right; auto].
  split; [reflexivity|]. now apply in_map.
Qed.

Lemma before_firstn (a b : A) (n : nat) (l : list A) :
  before a b (firstn n l) -> before a b l.
Proof.
  revert l. induction n as [|n IH]; intros [|x l]; simpl; try tauto.
  intros [[-> Hb]|H]; [left|right; auto].
  split; [reflexivity|].
  rewrite <- (firstn_skipn n l). apply in_or_app. now left.
Qed.

Lemma nth_error_before (l : list A) (i j : nat) (a b : A) :
  i < j ->
  nth_error l i = Some a ->
  nth_error l j = Some b ->
  before a b l.
Proof.
  revert i j. induction l as [|x l IH]; intros i j Hij Hi Hj.
  - destruct i; discriminate.
  - destruct j as [|j]; [lia|]. simpl in Hj. destruct i as [|i]; simpl in *.
    + inversion Hi; subst. left. split; [reflexivity|].
      eapply nth_error_In; exact Hj.
    + right. apply (IH i j); [lia|assumption|assumption].
Qed.
End Before.

(** ** Discovery order of the keys *)

Section DiscoveryOrder.
Context {K E : Type}.
Variable same : K -> K -> bool.
Hypothesis same_spec : forall a b, same a b = true <-> a = b.
Variable sel : E -> option K.

(** The entries of the map stand in the order in which their keys were
    first met. *)
Lemma countBy_discovery (l : list E) (a b : K) :
  before a b (map fst (countBy same sel l)) ->
  firstSeen same sel a l < firstSeen same sel b l.
Proof.
  induction l as [|e l IH] using rev_ind; [simpl; tauto|].
  assert (Hold : before a b (map fst (countBy same sel l)) ->
                 firstSeen same sel a (l ++ [e])
                 < firstSeen same sel b (l ++ [e])).
  { intros H. pose proof (IH H) as Hlt. apply before_in in H.
    destruct H as [Ha Hb].
    destruct (firstSeen_known same same_spec sel a l e Ha) as [-> _].
    destruct (firstSeen_known same same_spec sel b l e Hb) as [-> _].
    exact Hlt. }
  rewrite countBy_snoc. destruct (sel e) as [k0|] eqn:He; [|exact Hold].
  unfold bump.
  destruct (map_get same (countBy same sel l) k0) as [c|] eqn:G.
  - rewrite (keys_set_in same same_spec)
      by (eapply map_get_some_key; eassumption).
    exact Hold.
  - apply (map_get_none same same_spec) in G.
    rewrite (keys_set_notin same same_spec) by exact G.
    intros H. apply before_snoc in H. destruct H as [H|[Ha ->]].
    + now apply Hold.
    + rewrite (firstSeen_new same same_spec sel k0 l e G He).
      destruct (firstSeen_known same same_spec sel a l e Ha) as [-> Hlt].
      exact Hlt.
Qed.
End DiscoveryOrder.

(** ** The sort *)

Section SortFacts.
Context {A : Type}.
Variable cmp : A -> A -> Z.

Lemma In_insertBy (x y : A) (l : list A) :
  In y (insertBy cmp x l) <-> x = y \/ In y l.
Proof.
  induction l as [|z l IH]; simpl; [tauto|].
  destruct (cmp x z <=? 0)%Z; simpl; tauto.
Qed.

Lemma In_sortBy (y : A) (l : list A) : In y (sortBy cmp l) <-> In y l.
Proof.
  induction l as [|x l IH]; simpl; [tauto|].
  rewrite In_insertBy, IH. tauto.
Qed.

Lemma length_insertBy (x : A) (l : list A) :
  List.length (insertBy cmp x l) = S (List.length l).
Proof.
  induction l as [|z l IH]; simpl; [reflexivity|].
  destruct (cmp x z <=? 0)%Z; simpl; congruence.
Qed.

Lemma length_sortBy (l : list A) :
  List.length (sortBy cmp l) = List.length l.
Proof.
  induction l as [|x l IH]; simpl; [reflexivity|].
  now rewrite length_insertBy, IH.
Qed.

(** Inserting [x] moves it behind [a] only when the comparator says
    so. *)
Lemma insertBy_before (x a b : A) (l : list A) :
  before a b (insertBy cmp x l) ->
  before a b l \/ (a = x /\ In b l) \/ (b = x /\ In a l /\ (0 < cmp x a)%Z).
Proof.
  induction l as [|y l IH]; simpl; [tauto|].
  destruct (Z.leb_spec (cmp x y) 0) as [Hle|Hgt]; simpl.
  - intros [[-> Hb]|H]; [|tauto]. right; left. tauto.
  - intros [[-> Hb]|H].
    + apply In_insertBy in Hb. destruct Hb as [<-|Hb]; [|tauto].
      right; right. tauto.
    + apply IH in H. tauto.
Qed.

(** Stability: two elements the comparator does not separate keep
    their relative order. *)
Lemma sortBy_stable (a b : A) (l : list A) :
  before a b (sortBy cmp l) -> (cmp b a <= 0)%Z -> before a b l.
Proof.
  induction l as [|x l IH]; simpl; [tauto|].
  intros H Hc. apply insertBy_before in H.
  destruct H as [H|[[-> Hb]|[-> [_ Hgt]]]].
  - right. now apply IH.
  - left. split; [reflexivity|]. exact (proj1 (In_sortBy b l) Hb).
  - lia.
Qed.

Section Ordered.
Hypothesis cmp_total : forall x y, (0 < cmp x y)%Z -> (cmp y x <= 0)%Z.
Hypothesis cmp_trans :
  forall x y z, (cmp x y <= 0)%Z -> (cmp y z <= 0)%Z -> (cmp x z <= 0)%Z.

Lemma insertBy_sorted (x : A) (l : list A) :
  StronglySorted (fun a b => (cmp a b <= 0)%Z) l ->
  StronglySorted (fun a b => (cmp a b <= 0)%Z) (insertBy cmp x l).
Proof.
  induction 1 as [|y l Hs IH Hall]; simpl.
  - repeat constructor.
  - destruct (Z.leb_spec (cmp x y) 0) as [Hle|Hgt].
    + constructor; [now constructor|].
      constructor; [exact Hle|].
      eapply Forall_impl; [|exact Hall].
      intros z Hz. now apply (cmp_trans x y z).
    + constructor; [exact IH|].
      apply Forall_forall. intros z Hz. apply In_insertBy in Hz.
      destruct Hz as [<-|Hz]; [now apply cmp_total|].
      rewrite Forall_forall in Hall. now apply Hall.
Qed.

Lemma sortBy_sorted (l : list A) :
  StronglySorted (fun a b => (cmp a b <= 0)%Z) (sortBy cmp l).
Proof.
  induction l as [|x l IH]; simpl; [constructor|].
  now apply insertBy_sorted.
Qed.
End Ordered.

End SortFacts.

(** ** Key comparisons and comparators of the module *)

Lemma sameValueZero_spec (a b : jsval) : sameValueZero a b = true <-> a = b.
Proof.
  destruct a, b; simpl; split; intros H;
    try discriminate; try reflexivity.
  - apply Bool.eqb_prop in H. congruence.
  - inversion H. apply Bool.eqb_reflx.
  - apply Z.eqb_eq in H. congruence.
  - inversion H. apply Z.eqb_refl.
  - apply String.eqb_eq in H. congruence.
  - inversion H. apply String.eqb_refl.
  - apply Pos.eqb_eq in H. congruence.
  - inversion H. apply Pos.eqb_refl.
Qed.

Lemma byCountDesc_total {K : Type} (x y : Counted K) :
  (0 < byCountDesc x y)%Z -> (byCountDesc y x <= 0)%Z.
Proof. unfold byCountDesc. lia. Qed.

Lemma byCountDesc_trans {K : Type} (x y z : Counted K) :
  (byCountDesc x y <= 0)%Z -> (byCountDesc y z <= 0)%Z ->
  (byCountDesc x z <= 0)%Z.
Proof. unfold byCountDesc. lia. Qed.

Section LocaleCompareFacts.
Variable w : ascii -> N.


End LocaleCompareFacts.

(** ** Ranking lists *)

Lemma StronglySorted_impl {A : Type} (R S : A -> A -> Prop) (l : list A) :
  (forall a b, R a b -> S a b) -> StronglySorted R l -> StronglySorted S l.
Proof.
  intros HRS. induction 1 as [|x l Hs IH Hall]; constructor; [exact IH|].
  eapply Forall_impl; [|exact Hall]. intros b. apply HRS.
Qed.

Lemma StronglySorted_firstn {A : Type} (R : A -> A -> Prop) (n : nat)
  (l : list A) :
  StronglySorted R l -> StronglySorted R (firstn n l).
Proof.
  intros Hs. revert n. induction Hs as [|x l Hs IH Hall]; intros [|n];
    simpl; try constructor.
  - apply IH.
  - rewrite Forall_forall in *. intros y Hy. apply Hall.
    rewrite <- (firstn_skipn n l). apply in_or_app. now left.
Qed.

Lemma In_firstn {A : Type} (x : A) (n : nat) (l : list A) :
  In x (firstn n l) -> In x l.
Proof.
  intros H. rewrite <- (firstn_skipn n l). apply in_or_app. now left.
Qed.

Section RankedFacts.
Context {K : Type}.

Lemma key_entries (m : @JsMap K) : map key (entries m) = map fst m.
Proof. unfold entries. rewrite map_map. reflexivity. Qed.

Lemma In_entries (m : @JsMap K) (a : Counted K) :
  In a (entries m) -> In (key a, count a) m.
Proof.
  unfold entries. rewrite in_map_iff. intros [[k c] [<- H]]. exact H.
Qed.

Lemma ranked_length (n : nat) (l : list (Counted K)) :
  List.length (ranked n l) <= n.
Proof. unfold ranked. apply firstn_le_length. Qed.

Lemma ranked_In (n : nat) (l : list (Counted K)) (a : Counted K) :
  In a (ranked n l) -> In a l.
Proof.
  unfold ranked. intros H. apply In_firstn in H.
  exact (proj1 (In_sortBy byCountDesc a l) H).
Qed.

Lemma sorted_nonIncreasing (l : list (Counted K)) :
  nonIncreasing (sortBy byCountDesc l).
Proof.
  unfold nonIncreasing.
  apply StronglySorted_impl
    with (R := fun a b => (byCountDesc a b <= 0)%Z).
  - unfold byCountDesc. intros a b. lia.
  - apply sortBy_sorted;
      [apply byCountDesc_total | apply byCountDesc_trans].
Qed.

Lemma ranked_nonIncreasing (n : nat) (l : list (Counted K)) :
  nonIncreasing (ranked n l).
Proof. apply StronglySorted_firstn, sorted_nonIncreasing. Qed.

Lemma ranked_before (n : nat) (l : list (Counted K)) (a b : Counted K) :
  before a b (ranked n l) -> count a = count b -> before a b l.
Proof.
  unfold ranked. intros H Hc. apply before_firstn in H.
  apply (sortBy_stable byCountDesc) in H; [exact H|].
  unfold byCountDesc. lia.
Qed.


Lemma sumCounts_from (l : list (Counted K)) (s : nat) :
  fold_left (fun sum c => sum + count c) l s = s + sumCounts l.
Proof.
  unfold sumCounts. revert s. induction l as [|a l IH]; intros s; simpl.
  - lia.
  - rewrite IH, (IH (count a)). lia.
Qed.

End RankedFacts.

(** ** Lists built by counting and ranking *)

Section CountedLists.
Context {K E : Type}.
Variable same : K -> K -> bool.
Hypothesis same_spec : forall a b, same a b = true <-> a = b.
Variable sel : E -> option K.

Lemma entries_positive (l : list E) :
  positiveCounts (entries (countBy same sel l)).
Proof.
  apply Forall_forall. intros a Ha. apply In_entries in Ha.
  now apply (entry_countBy same same_spec sel) in Ha.
Qed.

Lemma ranked_positive (n : nat) (l : list E) :
  positiveCounts (ranked n (entries (countBy same sel l))).
Proof.
  apply Forall_forall. intros a Ha. apply ranked_In in Ha.
  pose proof (entries_positive l) as Hp. unfold positiveCounts in Hp.
  rewrite Forall_forall in Hp. now apply Hp.
Qed.

Lemma ranked_tieBreak (n : nat) (l : list E) :
  tieBreak same sel l (ranked n (entries (countBy same sel l))).
Proof.
  intros i j a b Hij Hi Hj Hc.
  apply (countBy_discovery same same_spec sel).
  rewrite <- key_entries. apply before_map.
  apply (ranked_before n); [|exact Hc].
  eapply nth_error_before; eassumption.
Qed.

(** An event the guard rejects leaves the map as it is. *)
Lemma countBy_skip (l1 l2 : list E) (e : E) :
  sel e = None ->
  countBy same sel (l1 ++ e :: l2) = countBy same sel (l1 ++ l2).
Proof.
  intros He. unfold countBy. rewrite !fold_left_app. simpl.
  now rewrite He.
Qed.

Lemma countBy_filter (p : E -> bool) (l : list E) :
  (forall e, p e = false -> sel e = None) ->
  countBy same sel (filter p l) = countBy same sel l.
Proof.
  intros Hp. unfold countBy. generalize (@nil (K * nat)).
  induction l as [|e l IH]; intros m; simpl; [reflexivity|].
  destruct (p e) eqn:He; simpl; [apply IH|].
  rewrite (Hp e He). apply IH.
Qed.

End CountedLists.

(** * The statistics *)

Section Occurrences.
Context {K E : Type}.
Variable same : K -> K -> bool.
Hypothesis same_spec : forall a b, same a b = true <-> a = b.
Variable sel : E -> option K.

Lemma occurrences_witness (k : K) (l : list E) :
  occurrences same sel k l <> 0 <-> exists e, In e l /\ sel e = Some k.
Proof.
  unfold occurrences. split.
  - intros Hn. destruct (filter (selects same sel k) l) as [|e r] eqn:F;
      [contradiction|].
    assert (Hin : In e (filter (selects same sel k) l))
      by (rewrite F; now left).
    apply filter_In in Hin. destruct Hin as [Hin Hs].
    exists e. split; [exact Hin|]. unfold selects in Hs.
    destruct (sel e) as [k'|]; [|discriminate].
    apply same_spec in Hs. now subst.
  - intros [e [Hin He]].
    assert (Hf : In e (filter (selects same sel k) l)).
    { apply filter_In. split; [exact Hin|]. unfold selects.
      rewrite He. now apply same_spec. }
    destruct (filter (selects same sel k) l); [contradiction|].
    simpl. lia.
Qed.

(** The keys of the map are the keys some event is counted under. *)
Lemma key_countBy_witness (k : K) (l : list E) :
  In k (map fst (countBy same sel l))
  <-> exists e, In e l /\ sel e = Some k.
Proof.
  rewrite (key_countBy_iff same same_spec). apply occurrences_witness.
Qed.
End Occurrences.

(** C5: [totalPageViews] is the number of events of the input, whatever
    their type: every event adds one to it. *)
Theorem totalPageViews_counts_every_event :
  forall getHours w (events : list AnalyticsEvent),
    totalPageViews (aggregate getHours w events) = List.length events
    /\ forall e,
         totalPageViews (aggregate getHours w (e :: events))
         = S (totalPageViews (aggregate getHours w events)).
Proof.
  intros getHours w events. split; [reflexivity|].
  intros e. reflexivity.
Qed.

(** C9: the promise is always fulfilled, and when the request to the
    store throws or answers with an error, it is fulfilled with the
    statistics of an empty collection: both totals zero and the six
    lists empty. *)
Theorem fetch_failure_yields_zero_stats :
  forall getHours w client filters,
    (exists s, getAnalyticsStats getHours w client filters = Normal s)
    /\ (((exists r, client (buildQuery filters) = Raised r)
         \/ (exists d err, client (buildQuery filters)
                           = Resolved d (Some err))) ->
        getAnalyticsStats getHours w client filters = Normal zeroStats
        /\ zeroStats = aggregate getHours w []
        /\ totalPageViews zeroStats = 0 /\ totalSearches zeroStats = 0
        /\ pageViews zeroStats = [] /\ topSearchedCodes zeroStats = []
        /\ topBrands zeroStats = [] /\ topUsers zeroStats = []
        /\ errorCodeFrequency zeroStats = []
        /\ activityByHour zeroStats = []).
Proof.
  intros getHours w client filters. unfold getAnalyticsStats, fetchEvents.
  split.
  - destruct (client (buildQuery filters)) as [[rows|] [err|]|r];
      simpl; eauto.
  - intros [[r ->]|[d [err ->]]]; simpl.
    + repeat split; reflexivity.
    + destruct d; simpl; repeat split; reflexivity.
Qed.

(** C1, on the code: the query built for a request with an [eventType]
    filter carries no condition on the event type, so a page view the
    store returns for it is aggregated like any other event. *)
Theorem eventType_filter_not_applied :
  buildQuery searchesOnly = baseQuery
  /\ (forall getHours w client sd ed t,
        getAnalyticsStats getHours w client
          (Some {| startDate := sd; endDate := ed; eventType := Some t |})
        = getAnalyticsStats getHours w client
            (Some {| startDate := sd; endDate := ed; eventType := None |}))
  /\ forall getHours w,
       let rows := [viewAt "/home" "2024-03-05T12:00:00.000Z"] in
       exists s,
         getAnalyticsStats getHours w (serving rows) searchesOnly = Normal s
         /\ totalPageViews s = 1
         /\ pageViews s = [mkCounted "/home" 1].
Proof.
  split; [reflexivity|]. split; [reflexivity|].
  intros getHours w rows. eexists. split; [reflexivity|].
  split; reflexivity.
Qed.

Lemma activityByHour_unfold :
  forall getHours w (events : list AnalyticsEvent),
    activityByHour (aggregate getHours w events)
    = sortBy (byHour w)
        (entries (countBy String.eqb (hourKey getHours) events)).
Proof. reflexivity. Qed.

Lemma activityByHour_length :
  forall getHours w (events : list AnalyticsEvent),
    List.length (activityByHour (aggregate getHours w events))
    = List.length (nodup string_dec (map (hourLabel getHours) events)).
Proof.
  intros getHours w events. rewrite activityByHour_unfold.
  rewrite length_sortBy.
  rewrite <- (length_map key), key_entries.
  apply Permutation_length, NoDup_Permutation.
  - apply (keys_countBy_NoDup String.eqb String.eqb_eq).
  - apply NoDup_nodup.
  - intros k. rewrite nodup_In.
    rewrite (key_countBy_witness String.eqb String.eqb_eq).
    rewrite in_map_iff.
    unfold hourKey, hourLabel. split; intros [e [H1 H2]]; exists e.
    + inversion H2. tauto.
    + split; [tauto|]. now f_equal.
Qed.

(** C6: [pageViews], [topSearchedCodes], [topBrands] and [topUsers] have
    at most 10 entries, [errorCodeFrequency] at most 15, and
    [activityByHour] is not cut: it has one entry for each distinct
    formatted hour of the input. *)
Theorem list_lengths_within_caps :
  forall getHours w (events : list AnalyticsEvent),
    let s := aggregate getHours w events in
    List.length (pageViews s) <= 10
    /\ List.length (topSearchedCodes s) <= 10
    /\ List.length (topBrands s) <= 10
    /\ List.length (topUsers s) <= 10
    /\ List.length (errorCodeFrequency s) <= 15
    /\ List.length (activityByHour s)
       = List.length (nodup string_dec (map (hourLabel getHours) events)).
Proof.
  intros getHours w events s. subst s.
  repeat split; try apply ranked_length.
  apply activityByHour_length.
Qed.

(** C7, as the code has it: every count of the six lists is at least
    one, and the counts never go up along the five lists ranked by
    count. *)
Theorem counts_positive_and_ranked_non_increasing :
  forall getHours w (events : list AnalyticsEvent),
    let s := aggregate getHours w events in
    (positiveCounts (pageViews s) /\ positiveCounts (topSearchedCodes s)
     /\ positiveCounts (topBrands s) /\ positiveCounts (topUsers s)
     /\ positiveCounts (errorCodeFrequency s)
     /\ positiveCounts (activityByHour s))
    /\ (nonIncreasing (pageViews s) /\ nonIncreasing (topSearchedCodes s)
        /\ nonIncreasing (topBrands s) /\ nonIncreasing (topUsers s)
        /\ nonIncreasing (errorCodeFrequency s)).
Proof.
  intros getHours w events s. subst s. split.
  - repeat split;
      try (apply (ranked_positive String.eqb String.eqb_eq));
      try (apply (ranked_positive sameValueZero sameValueZero_spec)).
    rewrite activityByHour_unfold. apply Forall_forall. intros a Ha.
    apply (proj1 (In_sortBy _ a _)) in Ha.
    pose proof (entries_positive String.eqb String.eqb_eq
                  (hourKey getHours) events) as Hp.
    unfold positiveCounts in Hp. rewrite Forall_forall in Hp.
    now apply Hp.
  - repeat split; apply ranked_nonIncreasing.
Qed.

(** C7, as stated, fails on the hour list: two events in the hour 9 and
    one in the hour 10 give the counts 1 then 2. *)
Lemma activityByHour_counts_can_increase :
  activityByHour (aggregate utcHours rootWeight busyNine)
  = [mkCounted "10:00" 1; mkCounted "9:00" 2]
  /\ ~ nonIncreasing (activityByHour (aggregate utcHours rootWeight busyNine)).
Proof.
  split; [reflexivity|].
  intros H. change (activityByHour (aggregate utcHours rootWeight busyNine))
    with [mkCounted "10:00" 1; mkCounted "9:00" 2] in H.
  inversion H as [|? ? _ Hall]; subst.
  inversion Hall as [|? ? Hle _]; subst. simpl in Hle. lia.
Qed.

Section MoreSortFacts.
Context {A : Type}.
Variable cmp : A -> A -> Z.

Lemma insertBy_Permutation (x : A) (l : list A) :
  Permutation (insertBy cmp x l) (x :: l).
Proof.
  induction l as [|y l IH]; simpl; [reflexivity|].
  destruct (cmp x y <=? 0)%Z; [reflexivity|].
  rewrite IH. apply perm_swap.
Qed.

Lemma sortBy_Permutation (l : list A) : Permutation (sortBy cmp l) l.
Proof.
  induction l as [|x l IH]; simpl; [reflexivity|].
  rewrite insertBy_Permutation. now constructor.
Qed.
End MoreSortFacts.

(** ** Ties at the cut *)

Section BeforeFacts.
Context {A : Type}.

Lemma before_total (a b : A) (l : list A) :
  In a l -> In b l -> a <> b -> before a b l \/ before b a l.
Proof.
  induction l as [|x l IH]; simpl; [tauto|].
  intros [->|Ha] [->|Hb] Hne.
  - contradiction.
  - left. left. tauto.
  - right. left. tauto.
  - destruct (IH Ha Hb Hne); tauto.
Qed.

Lemma before_asym (a b : A) (l : list A) :
  NoDup l -> before a b l -> before b a l -> False.
Proof.
  induction l as [|x l IH]; simpl; [tauto|].
  intros Hnd. inversion Hnd as [|? ? Hnin Hnd']; subst.
  intros [[Hxa Hb]|H1] [[Hxb Ha]|H2].
  - subst. contradiction.
  - subst x. apply before_in in H2. tauto.
  - subst x. apply before_in in H1. tauto.
  - now apply IH.
Qed.

Lemma before_index (a b : A) (l : list A) (j : nat) :
  NoDup l -> before a b l -> nth_error l j = Some b ->
  exists i, i < j /\ nth_error l i = Some a.
Proof.
  revert j. induction l as [|x l IH]; simpl; [tauto|].
  intros j Hnd Hbef Hj. inversion Hnd as [|? ? Hnin Hnd']; subst.
  destruct j as [|j]; simpl in Hj.
  - inversion Hj; subst. exfalso.
    destruct Hbef as [[_ Hb]|H]; [contradiction|].
    apply before_in in H. tauto.
  - destruct Hbef as [[-> _]|H].
    + exists 0. split; [lia|reflexivity].
    + destruct (IH j Hnd' H Hj) as [i [Hlt Hi]].
      exists (S i). split; [lia|exact Hi].
Qed.
End BeforeFacts.

Section TieKept.
Context {K E : Type}.
Variable same : K -> K -> bool.
Hypothesis same_spec : forall a b, same a b = true <-> a = b.
Variable sel : E -> option K.
Variable n : nat.
Variable events : list E.

Lemma counted_key_entry (k : K) :
  occurrences same sel k events <> 0 ->
  In (mkCounted k (occurrences same sel k events))
    (entries (countBy same sel events)).
Proof.
  intros Hnz. apply (key_countBy_iff same same_spec) in Hnz.
  apply in_map_iff in Hnz. destruct Hnz as [[k' c] [Hfst Hin]].
  simpl in Hfst. subst k'.
  destruct (entry_countBy same same_spec sel _ _ _ Hin) as [Hc _].
  unfold entries. apply in_map_iff. exists (k, c).
  split; [simpl; now rewrite Hc|exact Hin].
Qed.

Lemma entries_NoDup : NoDup (entries (countBy same sel events)).
Proof.
  apply (NoDup_map_inv key). rewrite key_entries.
  apply (keys_countBy_NoDup same same_spec).
Qed.

(** A key counted as often as an entry of the list and discovered before
    it is in the list, before that entry. *)
Lemma ranked_tieKept :
  tieKept same sel events (ranked n (entries (countBy same sel events))).
Proof.
  intros j b k Hj Hocc Hfs.
  set (all := entries (countBy same sel events)) in *.
  set (ak := mkCounted k (occurrences same sel k events)).
  assert (Hb : In b all) by (eapply ranked_In, nth_error_In; exact Hj).
  assert (Hpos : 0 < count b).
  { apply In_entries in Hb.
    now apply (entry_countBy same same_spec sel) in Hb. }
  assert (Ha : In ak all) by (apply counted_key_entry; lia).
  assert (Hne : ak <> b).
  { intros <-. simpl in Hfs. lia. }
  pose proof entries_NoDup as Hnd. fold all in Hnd.
  assert (Hall : before ak b all).
  { destruct (before_total ak b all Ha Hb Hne) as [H|H]; [exact H|].
    exfalso. apply (before_map key) in H. unfold all in H.
    rewrite key_entries in H.
    apply (countBy_discovery same same_spec sel) in H. simpl in H. lia. }
  set (sorted := sortBy byCountDesc all).
  assert (Hsorted : before ak b sorted).
  { destruct (before_total ak b sorted) as [H|H];
      [now apply In_sortBy|now apply In_sortBy|exact Hne|exact H|].
    exfalso. apply (sortBy_stable byCountDesc) in H.
    - exact (before_asym ak b all Hnd Hall H).
    - unfold byCountDesc, ak. simpl. lia. }
  assert (Hnds : NoDup sorted).
  { eapply Permutation_NoDup; [|exact Hnd].
    symmetry. apply sortBy_Permutation. }
  unfold ranked in *. fold sorted in Hj |- *.
  rewrite nth_error_firstn in Hj.
  destruct (Nat.ltb_spec j n) as [Hjn|]; [|discriminate].
  destruct (before_index ak b sorted j Hnds Hsorted Hj) as [i [Hij Hi]].
  exists i, ak. split; [exact Hij|]. split.
  - rewrite nth_error_firstn.
    destruct (Nat.ltb_spec i n); [exact Hi|lia].
  - split; [reflexivity|exact Hocc].
Qed.
End TieKept.

(** C4, as the code has it: in each of the five lists ranked by count,
    of two entries with the same count the one placed first has the key
    met first in the delivery order of the input; and a key counted as
    often as an entry of the list and met before that entry's key is in
    the list too, placed before it, so that of the keys tied where the
    list is cut the first met are the ones kept. *)
Theorem ranked_lists_break_ties_by_discovery :
  forall getHours w (events : list AnalyticsEvent),
    let s := aggregate getHours w events in
    tieBreak String.eqb pathKey events (pageViews s)
    /\ tieBreak sameValueZero searchKey events (topSearchedCodes s)
    /\ tieBreak sameValueZero brandKey events (topBrands s)
    /\ tieBreak String.eqb userKey events (topUsers s)
    /\ tieBreak sameValueZero errorKey events (errorCodeFrequency s)
    /\ tieKept String.eqb pathKey events (pageViews s)
    /\ tieKept sameValueZero searchKey events (topSearchedCodes s)
    /\ tieKept sameValueZero brandKey events (topBrands s)
    /\ tieKept String.eqb userKey events (topUsers s)
    /\ tieKept sameValueZero errorKey events (errorCodeFrequency s).
Proof.
  intros getHours w events s. subst s.
  split; [apply (ranked_tieBreak String.eqb String.eqb_eq)|].
  split; [apply (ranked_tieBreak sameValueZero sameValueZero_spec)|].
  split; [apply (ranked_tieBreak sameValueZero sameValueZero_spec)|].
  split; [apply (ranked_tieBreak String.eqb String.eqb_eq)|].
  split; [apply (ranked_tieBreak sameValueZero sameValueZero_spec)|].
  split; [apply (ranked_tieKept String.eqb String.eqb_eq)|].
  split; [apply (ranked_tieKept sameValueZero sameValueZero_spec)|].
  split; [apply (ranked_tieKept sameValueZero sameValueZero_spec)|].
  split; [apply (ranked_tieKept String.eqb String.eqb_eq)|].
  apply (ranked_tieKept sameValueZero sameValueZero_spec).
Qed.

(** C4, as stated, fails on the hour list: the hours 9, 10 and 2 are met
    in that order with one event each, and ["9:00"] comes last. *)
Lemma activityByHour_ignores_discovery_order :
  activityByHour (aggregate utcHours rootWeight threeHours)
  = [mkCounted "10:00" 1; mkCounted "2:00" 1; mkCounted "9:00" 1]
  /\ ~ tieBreak String.eqb (hourKey utcHours) threeHours
        (activityByHour (aggregate utcHours rootWeight threeHours)).
Proof.
  split; [reflexivity|].
  intros H.
  specialize (H 0 2 (mkCounted "10:00" 1) (mkCounted "9:00" 1)).
  assert (Hlt : 0 < 2) by lia.
  specialize (H Hlt eq_refl eq_refl eq_refl).
  vm_compute in H. lia.
Qed.





Lemma userKey_anonymous (e : AnalyticsEvent) :
  hasUserId e = false -> userKey e = None.
Proof. unfold hasUserId, userKey. now destruct (user_id e). Qed.

Lemma userKey_Some (e : AnalyticsEvent) (u : string) :
  userKey e = Some u -> user_id e = Some u.
Proof.
  unfold userKey. destruct (user_id e) as [v|]; [|discriminate].
  destruct (truthy_string v); [congruence|discriminate].
Qed.

Lemma topUsers_unfold :
  forall getHours w (events : list AnalyticsEvent),
    topUsers (aggregate getHours w events)
    = ranked 10 (entries (countBy String.eqb userKey events)).
Proof. reflexivity. Qed.

(** C8: events whose [userId] is [null] add nothing to [topUsers]: the
    list is the one of the events that have a user, and every entry is
    the user of some event.  With two users of five events each among
    events that are otherwise anonymous (a hundred of them), the list
    has exactly two entries, one per user, each with the count 5. *)
Theorem anonymous_events_not_in_topUsers :
  forall getHours w (events : list AnalyticsEvent),
    let s := aggregate getHours w events in
    topUsers s = topUsers (aggregate getHours w (filter hasUserId events))
    /\ (forall a, In a (topUsers s) ->
        exists e, In e events /\ user_id e = Some (key a))
    /\ forall u1 u2,
         u1 <> u2 ->
         Forall (fun e => user_id e = None \/ user_id e = Some u1
                          \/ user_id e = Some u2) events ->
         occurrences String.eqb userKey u1 events = 5 ->
         occurrences String.eqb userKey u2 events = 5 ->
         List.length (filter (fun e => negb (hasUserId e)) events) = 100 ->
         List.length (topUsers s) = 2
         /\ Forall (fun a => (key a = u1 \/ key a = u2) /\ count a = 5)
              (topUsers s).
Proof.
  intros getHours w events s. subst s. rewrite !topUsers_unfold.
  split; [|split].
  - now rewrite (countBy_filter String.eqb userKey hasUserId events
                   userKey_anonymous).
  - intros a Ha. apply ranked_In, In_entries in Ha.
    apply (in_map fst) in Ha. simpl in Ha.
    apply (key_countBy_witness String.eqb String.eqb_eq) in Ha.
    destruct Ha as [e [Hin He]]. exists e. split; [exact Hin|].
    now apply userKey_Some.
  - intros u1 u2 Hne Hall H1 H2 _.
    set (m := countBy String.eqb userKey events).
    assert (Hkeys : forall k, In k (map fst m) <-> In k [u1; u2]).
    { intros k. unfold m. split.
      - intros Hk.
        apply (key_countBy_witness String.eqb String.eqb_eq) in Hk.
        destruct Hk as [e [Hin He]]. apply userKey_Some in He.
        rewrite Forall_forall in Hall. specialize (Hall e Hin).
        simpl. destruct Hall as [H|[H|H]]; rewrite H in He;
          [discriminate|inversion He; tauto|inversion He; tauto].
      - rewrite (key_countBy_iff String.eqb String.eqb_eq).
        intros [<-|[<-|[]]]; lia. }
    assert (Hlen : List.length m = 2).
    { rewrite <- (length_map fst).
      change 2 with (List.length [u1; u2]).
      apply Permutation_length, NoDup_Permutation.
      - apply (keys_countBy_NoDup String.eqb String.eqb_eq).
      - repeat constructor; simpl; intuition.
      - exact Hkeys. }
    split.
    + unfold ranked. rewrite length_firstn, length_sortBy.
      unfold entries. rewrite length_map, Hlen. reflexivity.
    + apply Forall_forall. intros a Ha.
      apply ranked_In, In_entries in Ha.
      pose proof (in_map fst _ _ Ha) as Hk. simpl in Hk.
      apply Hkeys in Hk. simpl in Hk.
      apply (entry_countBy String.eqb String.eqb_eq) in Ha.
      destruct Ha as [Hc _]. rewrite Hc.
      destruct Hk as [<-|[<-|[]]]; split; auto.
Qed.


Lemma activityByHour_keys :
  forall getHours w (events : list AnalyticsEvent) (a : Counted string),
    In a (activityByHour (aggregate getHours w events)) ->
    exists e, In e events /\ key a = hourLabel getHours e.
Proof.
  intros getHours w events a Ha. rewrite activityByHour_unfold in Ha.
  apply (proj1 (In_sortBy _ a _)), In_entries in Ha.
  apply (in_map fst) in Ha. simpl in Ha.
  apply (key_countBy_witness String.eqb String.eqb_eq) in Ha.
  destruct Ha as [e [Hin He]]. exists e. split; [exact Hin|].
  unfold hourKey in He. unfold hourLabel. congruence.
Qed.


Lemma metaKey_absentOrEmpty (name : string) (e : AnalyticsEvent) :
  absentOrEmpty (metaProp e name) -> metaKey name e = None.
Proof.
  unfold absentOrEmpty, metaKey. simpl.
  intros [<-|[<-|[<-|[<-|[]]]]]; reflexivity.
Qed.

Lemma searchKey_absentOrEmpty (e : AnalyticsEvent) :
  absentOrEmpty (metaProp e "code") -> searchKey e = None.
Proof.
  intros H. unfold searchKey. rewrite (metaKey_absentOrEmpty "code" e H).
  now destruct (String.eqb (event_type e) "search").
Qed.

(** C10: the guards test truthiness.  An event whose [path] is the empty
    string is left out of [pageViews], one whose [userId] is the empty
    string out of [topUsers], and one whose [meta.code], [meta.brand] or
    [meta.errorCode] is [""], [0] or [false] out of the corresponding
    list, exactly as when the property is absent: the list is the one
    computed without the event. *)
Theorem guards_test_truthiness :
  forall getHours w (l1 l2 : list AnalyticsEvent) (e : AnalyticsEvent),
    let with_e := aggregate getHours w (l1 ++ e :: l2) in
    let without := aggregate getHours w (l1 ++ l2) in
    (path e = Some "" -> pageViews with_e = pageViews without)
    /\ (user_id e = Some "" -> topUsers with_e = topUsers without)
    /\ (absentOrEmpty (metaProp e "code") ->
        topSearchedCodes with_e = topSearchedCodes without
        /\ totalSearches with_e = totalSearches without)
    /\ (absentOrEmpty (metaProp e "brand") ->
        topBrands with_e = topBrands without)
    /\ (absentOrEmpty (metaProp e "errorCode") ->
        errorCodeFrequency with_e = errorCodeFrequency without).
Proof.
  intros getHours w l1 l2 e with_e without. subst with_e without.
  unfold aggregate. cbn [pageViews topUsers topSearchedCodes totalSearches
                          topBrands errorCodeFrequency].
  repeat split.
  - intros H. rewrite (countBy_skip String.eqb pathKey l1 l2 e);
      [reflexivity|]. unfold pathKey. now rewrite H.
  - intros H. rewrite (countBy_skip String.eqb userKey l1 l2 e);
      [reflexivity|]. unfold userKey. now rewrite H.
  - rewrite (countBy_skip sameValueZero searchKey l1 l2 e);
      [reflexivity|]. now apply searchKey_absentOrEmpty.
  - rewrite (countBy_skip sameValueZero searchKey l1 l2 e);
      [reflexivity|]. now apply searchKey_absentOrEmpty.
  - intros H. rewrite (countBy_skip sameValueZero brandKey l1 l2 e);
      [reflexivity|]. now apply metaKey_absentOrEmpty.
  - intros H. rewrite (countBy_skip sameValueZero errorKey l1 l2 e);
      [reflexivity|]. now apply metaKey_absentOrEmpty.
Qed.

(** * The theorems at concrete inputs *)

Lemma fetch_failure_yields_zero_stats_witness :
  getAnalyticsStats utcHours rootWeight (failing "timeout") None
  = Normal zeroStats
  /\ getAnalyticsStats utcHours rootWeight (throwing "offline") searchesOnly
     = Normal (aggregate utcHours rootWeight []).
Proof.
  split.
  - apply (proj2 (fetch_failure_yields_zero_stats utcHours rootWeight
                    (failing "timeout") None)).
    right. exists None, {| message := "timeout" |}. reflexivity.
  - destruct (proj2 (fetch_failure_yields_zero_stats utcHours rootWeight
                       (throwing "offline") searchesOnly)) as [H1 [H2 _]].
    + left. exists {| message := "offline" |}. reflexivity.
    + rewrite <- H2. exact H1.
Defined.


Lemma anonymous_events_not_in_topUsers_witness :
  List.length (topUsers (aggregate utcHours rootWeight usersAndAnonymous))
  = 2
  /\ Forall (fun a => (key a = "u1" \/ key a = "u2") /\ count a = 5)
       (topUsers (aggregate utcHours rootWeight usersAndAnonymous)).
Proof.
  destruct (anonymous_events_not_in_topUsers utcHours rootWeight
              usersAndAnonymous) as [_ [_ H]].
  apply (H "u1" "u2").
  - discriminate.
  - apply Forall_forall. intros e He. unfold usersAndAnonymous in He.
    rewrite !in_app_iff in He.
    destruct He as [He|[He|He]]; apply repeat_spec in He; subst e;
      simpl; tauto.
  - reflexivity.
  - reflexivity.
  - reflexivity.
Defined.


Lemma guards_test_truthiness_witness :
  let with_e :=
    aggregate utcHours rootWeight (twoPaths ++ emptyFields :: twelveEvents) in
  let without := aggregate utcHours rootWeight (twoPaths ++ twelveEvents) in
  pageViews with_e = pageViews without
  /\ topUsers with_e = topUsers without
  /\ topSearchedCodes with_e = topSearchedCodes without
  /\ topBrands with_e = topBrands without
  /\ errorCodeFrequency with_e = errorCodeFrequency without.
Proof.
  destruct (guards_test_truthiness utcHours rootWeight twoPaths twelveEvents
              emptyFields) as [Hp [Hu [Hc [Hb He]]]].
  split; [apply Hp; reflexivity|].
  split; [apply Hu; reflexivity|].
  split; [apply Hc; right; left; reflexivity|].
  split; [apply Hb; right; right; left; reflexivity|].
  apply He. right; right; right; left. reflexivity.
Defined.

Lemma ranked_lists_break_ties_by_discovery_witness :
  pageViews (aggregate utcHours rootWeight twoPaths)
  = [mkCounted "/a" 1; mkCounted "/b" 1]
  /\ firstSeen String.eqb pathKey "/a" twoPaths
     < firstSeen String.eqb pathKey "/b" twoPaths
  /\ exists i a,
       i < 9
       /\ nth_error
            (topSearchedCodes (aggregate utcHours rootWeight twelveEvents)) i
          = Some a
       /\ key a = JStr "E09" /\ count a = 1.
Proof.
  split; [reflexivity|]. split.
  - destruct (ranked_lists_break_ties_by_discovery utcHours rootWeight
                twoPaths) as [H _].
    apply (H 0 1 (mkCounted "/a" 1) (mkCounted "/b" 1));
      [lia|reflexivity|reflexivity|reflexivity].
  - destruct (ranked_lists_break_ties_by_discovery utcHours rootWeight
                twelveEvents) as [_ [_ [_ [_ [_ [_ [H _]]]]]]].
    apply (H 9 (mkCounted (JStr "E10") 1) (JStr "E09"));
      [reflexivity|reflexivity|vm_compute; lia].
Defined.

(** * Further properties of the aggregation *)

Lemma StronglySorted_app_cross {A : Type} (R : A -> A -> Prop)
  (l1 l2 : list A) (a b : A) :
  StronglySorted R (l1 ++ l2) -> In a l1 -> In b l2 -> R a b.
Proof.
  induction l1 as [|x l1 IH]; simpl; [tauto|].
  intros Hs [->|Ha] Hb; inversion Hs as [|? ? Hs' Hall]; subst.
  - rewrite Forall_forall in Hall. apply Hall, in_or_app. now right.
  - now apply IH.
Qed.

Lemma NoDup_firstn {A : Type} (n : nat) (l : list A) :
  NoDup l -> NoDup (firstn n l).
Proof.
  intros H. rewrite <- (firstn_skipn n l) in H.
  now apply NoDup_app_remove_r in H.
Qed.

Section SumFacts.
Context {K : Type}.

Lemma sumCounts_cons (a : Counted K) (l : list (Counted K)) :
  sumCounts (a :: l) = count a + sumCounts l.
Proof. unfold sumCounts at 1. simpl. apply sumCounts_from. Qed.

Lemma sumCounts_app (l1 l2 : list (Counted K)) :
  sumCounts (l1 ++ l2) = sumCounts l1 + sumCounts l2.
Proof.
  induction l1 as [|a l1 IH]; simpl; [reflexivity|].
  rewrite !sumCounts_cons, IH. lia.
Qed.

Lemma sumCounts_Permutation (l1 l2 : list (Counted K)) :
  Permutation l1 l2 -> sumCounts l1 = sumCounts l2.
Proof.
  induction 1; rewrite ?sumCounts_cons; lia.
Qed.

Lemma sumCounts_firstn (n : nat) (l : list (Counted K)) :
  sumCounts (firstn n l) <= sumCounts l.
Proof.
  rewrite <- (firstn_skipn n l) at 2. rewrite sumCounts_app. lia.
Qed.

Variable same : K -> K -> bool.

Lemma sumCounts_bump (m : JsMap) (k : K) :
  sumCounts (entries (bump same m k)) = S (sumCounts (entries m)).
Proof.
  unfold bump. induction m as [|[k0 v0] m IH]; simpl; [reflexivity|].
  destruct (same k0 k); simpl; rewrite !sumCounts_cons; simpl.
  - lia.
  - rewrite IH. lia.
Qed.

(** The counts of a map add up to the number of events its loop let
    through. *)
Lemma sumCounts_countBy {E : Type} (sel : E -> option K) (l : list E) :
  sumCounts (entries (countBy same sel l))
  = List.length (filter (guarded sel) l).
Proof.
  induction l as [|e l IH] using rev_ind; [reflexivity|].
  rewrite countBy_snoc, filter_app, length_app. simpl. unfold guarded at 2.
  destruct (sel e) as [k|]; simpl.
  - rewrite sumCounts_bump, IH. lia.
  - rewrite IH. lia.
Qed.
End SumFacts.

(** ** What a ranking list says about the input *)

Section RankedSpec.
Context {K E : Type}.
Variable same : K -> K -> bool.
Hypothesis same_spec : forall a b, same a b = true <-> a = b.
Variable sel : E -> option K.
Variable n : nat.
Variable events : list E.

Lemma entries_exactCounts :
  exactCounts same sel events (entries (countBy same sel events)).
Proof.
  apply Forall_forall. intros a Ha. apply In_entries in Ha.
  now apply (entry_countBy same same_spec sel) in Ha.
Qed.

Lemma ranked_exactCounts :
  exactCounts same sel events (ranked n (entries (countBy same sel events))).
Proof.
  apply Forall_forall. intros a Ha. apply ranked_In in Ha.
  pose proof entries_exactCounts as H. unfold exactCounts in H.
  rewrite Forall_forall in H. now apply H.
Qed.

Lemma entries_keys_NoDup :
  NoDup (map key (entries (countBy same sel events))).
Proof.
  rewrite key_entries. apply (keys_countBy_NoDup same same_spec).
Qed.

Lemma sorted_keys_NoDup (cmp : Counted K -> Counted K -> Z) :
  NoDup (map key (sortBy cmp (entries (countBy same sel events)))).
Proof.
  eapply Permutation_NoDup; [|exact entries_keys_NoDup].
  apply Permutation_map. symmetry. apply sortBy_Permutation.
Qed.

Lemma ranked_keys_NoDup :
  NoDup (map key (ranked n (entries (countBy same sel events)))).
Proof.
  unfold ranked. rewrite <- firstn_map. apply NoDup_firstn.
  apply sorted_keys_NoDup.
Qed.

Lemma ranked_sum_le :
  sumCounts (ranked n (entries (countBy same sel events)))
  <= List.length (filter (guarded sel) events).
Proof.
  rewrite <- (sumCounts_countBy same sel events).
  rewrite <- (sumCounts_Permutation _ _
                (sortBy_Permutation byCountDesc
                   (entries (countBy same sel events)))).
  apply sumCounts_firstn.
Qed.

Lemma ranked_dominates :
  dominates same sel events (ranked n (entries (countBy same sel events))).
Proof.
  intros a k Ha Hk.
  destruct (Nat.eq_dec (occurrences same sel k events) 0) as [Hz|Hnz];
    [lia|].
  set (all := entries (countBy same sel events)) in *.
  assert (Hin : In (mkCounted k (occurrences same sel k events)) all).
  { apply (key_countBy_iff same same_spec) in Hnz.
    apply in_map_iff in Hnz. destruct Hnz as [[k' c] [Hfst Hin]].
    simpl in Hfst. subst k'.
    destruct (entry_countBy same same_spec sel _ _ _ Hin) as [Hc _].
    unfold all, entries. apply in_map_iff. exists (k, c).
    split; [simpl; now rewrite Hc|exact Hin]. }
  apply (In_sortBy byCountDesc) in Hin.
  rewrite <- (firstn_skipn n (sortBy byCountDesc all)) in Hin.
  apply in_app_or in Hin. destruct Hin as [Hin|Hin].
  - exfalso. apply Hk. apply (in_map key) in Hin. exact Hin.
  - pose proof (sorted_nonIncreasing all) as Hs. unfold nonIncreasing in Hs.
    rewrite <- (firstn_skipn n (sortBy byCountDesc all)) in Hs.
    exact (StronglySorted_app_cross _ _ _ _ _ Hs Ha Hin).
Qed.

Lemma ranked_whole :
  fewKeys sel events n ->
  covers sel events (ranked n (entries (countBy same sel events)))
  /\ sumCounts (ranked n (entries (countBy same sel events)))
     = List.length (filter (guarded sel) events).
Proof.
  intros [ks [Hlen Hks]].
  set (all := entries (countBy same sel events)).
  assert (Hall : List.length (sortBy byCountDesc all) <= n).
  { rewrite length_sortBy. unfold all.
    rewrite <- (length_map key), key_entries.
    etransitivity; [|exact Hlen].
    apply NoDup_incl_length;
      [apply (keys_countBy_NoDup same same_spec)|].
    intros k Hk. apply (key_countBy_witness same same_spec) in Hk.
    destruct Hk as [e [Hin He]]. now apply (Hks e). }
  unfold ranked. rewrite firstn_all2 by exact Hall. split.
  - intros e k Hin He.
    eapply Permutation_in;
      [apply Permutation_map; symmetry; apply sortBy_Permutation|].
    unfold all. rewrite key_entries.
    apply (key_countBy_witness same same_spec). now exists e.
  - rewrite (sumCounts_Permutation _ _ (sortBy_Permutation byCountDesc all)).
    apply sumCounts_countBy.
Qed.
End RankedSpec.

Lemma length_filter_le {A : Type} (p : A -> bool) (l : list A) :
  List.length (filter p l) <= List.length l.
Proof.
  induction l as [|x l IH]; simpl; [lia|].
  destruct (p x); simpl; lia.
Qed.

Lemma length_filter_mono {A : Type} (p q : A -> bool) (l : list A) :
  (forall x, p x = true -> q x = true) ->
  List.length (filter p l) <= List.length (filter q l).
Proof.
  intros Hpq. induction l as [|x l IH]; simpl; [lia|].
  destruct (p x) eqn:Hp.
  - rewrite (Hpq x Hp). simpl. lia.
  - destruct (q x); simpl; lia.
Qed.

Lemma guarded_searchKey_isSearch (e : AnalyticsEvent) :
  guarded searchKey e = true -> isSearch e = true.
Proof.
  unfold guarded, searchKey, isSearch.
  now destruct (String.eqb (event_type e) "search").
Qed.

(** X1: in each of the six lists, the count of an entry is the number of
    events of the input that the loop of that list counts under the
    entry's key. *)
Theorem entries_carry_exact_counts :
  forall getHours w (events : list AnalyticsEvent),
    let s := aggregate getHours w events in
    exactCounts String.eqb pathKey events (pageViews s)
    /\ exactCounts sameValueZero searchKey events (topSearchedCodes s)
    /\ exactCounts sameValueZero brandKey events (topBrands s)
    /\ exactCounts String.eqb userKey events (topUsers s)
    /\ exactCounts sameValueZero errorKey events (errorCodeFrequency s)
    /\ exactCounts String.eqb (hourKey getHours) events (activityByHour s).
Proof.
  intros getHours w events s. subst s.
  repeat split;
    try (apply (ranked_exactCounts String.eqb String.eqb_eq));
    try (apply (ranked_exactCounts sameValueZero sameValueZero_spec)).
  rewrite activityByHour_unfold. apply Forall_forall. intros a Ha.
  apply (proj1 (In_sortBy _ a _)) in Ha.
  pose proof (entries_exactCounts String.eqb String.eqb_eq
                (hourKey getHours) events) as H.
  unfold exactCounts in H. rewrite Forall_forall in H. now apply H.
Qed.

Lemma activityByHour_keys_NoDup :
  forall getHours w (events : list AnalyticsEvent),
    NoDup (map key (activityByHour (aggregate getHours w events))).
Proof.
  intros getHours w events. rewrite activityByHour_unfold.
  apply (sorted_keys_NoDup String.eqb String.eqb_eq).
Qed.

(** X2: no key appears twice in any of the six lists. *)
Theorem keys_of_a_list_are_distinct :
  forall getHours w (events : list AnalyticsEvent),
    let s := aggregate getHours w events in
    NoDup (map key (pageViews s))
    /\ NoDup (map key (topSearchedCodes s))
    /\ NoDup (map key (topBrands s))
    /\ NoDup (map key (topUsers s))
    /\ NoDup (map key (errorCodeFrequency s))
    /\ NoDup (map key (activityByHour s)).
Proof.
  intros getHours w events s. subst s.
  repeat split;
    try (apply (ranked_keys_NoDup String.eqb String.eqb_eq));
    try (apply (ranked_keys_NoDup sameValueZero sameValueZero_spec)).
  apply activityByHour_keys_NoDup.
Qed.

(** X3: the counts of [activityByHour] add up to the number of events:
    every event falls in exactly one hour entry. *)
Theorem activityByHour_counts_every_event_once :
  forall getHours w (events : list AnalyticsEvent),
    let s := aggregate getHours w events in
    sumCounts (activityByHour s) = List.length events
    /\ sumCounts (activityByHour s) = totalPageViews s.
Proof.
  intros getHours w events s. subst s.
  assert (H : sumCounts (activityByHour (aggregate getHours w events))
              = List.length events).
  { rewrite activityByHour_unfold.
    rewrite (sumCounts_Permutation _ _ (sortBy_Permutation _ _)).
    rewrite sumCounts_countBy. f_equal.
    apply forallb_filter_id. apply forallb_forall. reflexivity. }
  split; [exact H|]. rewrite H. reflexivity.
Qed.

(** X4: the counts of a ranked list never add up to more than the number
    of events: [totalSearches] is at most the number of search events,
    and each of the other four sums at most [totalPageViews]. *)
Theorem ranked_sums_bounded_by_input :
  forall getHours w (events : list AnalyticsEvent),
    let s := aggregate getHours w events in
    totalSearches s <= List.length (filter isSearch events)
    /\ totalSearches s <= totalPageViews s
    /\ sumCounts (pageViews s) <= totalPageViews s
    /\ sumCounts (topBrands s) <= totalPageViews s
    /\ sumCounts (topUsers s) <= totalPageViews s
    /\ sumCounts (errorCodeFrequency s) <= totalPageViews s.
Proof.
  intros getHours w events s. subst s.
  assert (Hs : totalSearches (aggregate getHours w events)
               <= List.length (filter isSearch events)).
  { etransitivity;
      [apply (ranked_sum_le sameValueZero searchKey 10 events)|].
    apply length_filter_mono, guarded_searchKey_isSearch. }
  split; [exact Hs|].
  split; [etransitivity; [exact Hs|apply length_filter_le]|].
  split; [etransitivity;
            [apply (ranked_sum_le String.eqb pathKey 10 events)
            |apply length_filter_le]|].
  split; [etransitivity;
            [apply (ranked_sum_le sameValueZero brandKey 10 events)
            |apply length_filter_le]|].
  split; [etransitivity;
            [apply (ranked_sum_le String.eqb userKey 10 events)
            |apply length_filter_le]|].
  etransitivity;
    [apply (ranked_sum_le sameValueZero errorKey 15 events)
    |apply length_filter_le].
Qed.

(** X5: the five ranked lists keep the most frequent keys: a key that is
    left out of a list is counted for no more events than any entry of
    the list. *)
Theorem ranked_lists_keep_the_most_frequent :
  forall getHours w (events : list AnalyticsEvent),
    let s := aggregate getHours w events in
    dominates String.eqb pathKey events (pageViews s)
    /\ dominates sameValueZero searchKey events (topSearchedCodes s)
    /\ dominates sameValueZero brandKey events (topBrands s)
    /\ dominates String.eqb userKey events (topUsers s)
    /\ dominates sameValueZero errorKey events (errorCodeFrequency s).
Proof.
  intros getHours w events s. subst s.
  repeat split;
    try (apply (ranked_dominates String.eqb String.eqb_eq));
    apply (ranked_dominates sameValueZero sameValueZero_spec).
Qed.

(** X6: a list whose events are counted under no more keys than its cap
    (10, or 15 for [errorCodeFrequency]) is not cut: every counted key
    has an entry and the counts add up to the number of events counted.
    In particular [totalSearches] is then the number of search events
    with a truthy code. *)
Theorem lists_under_their_cap_are_whole :
  forall getHours w (events : list AnalyticsEvent),
    let s := aggregate getHours w events in
    (fewKeys pathKey events 10 ->
     covers pathKey events (pageViews s)
     /\ sumCounts (pageViews s)
        = List.length (filter (guarded pathKey) events))
    /\ (fewKeys searchKey events 10 ->
        covers searchKey events (topSearchedCodes s)
        /\ totalSearches s
           = List.length (filter (guarded searchKey) events))
    /\ (fewKeys brandKey events 10 ->
        covers brandKey events (topBrands s)
        /\ sumCounts (topBrands s)
           = List.length (filter (guarded brandKey) events))
    /\ (fewKeys userKey events 10 ->
        covers userKey events (topUsers s)
        /\ sumCounts (topUsers s)
           = List.length (filter (guarded userKey) events))
    /\ (fewKeys errorKey events 15 ->
        covers errorKey events (errorCodeFrequency s)
        /\ sumCounts (errorCodeFrequency s)
           = List.length (filter (guarded errorKey) events)).
Proof.
  intros getHours w events s. subst s.
  split; [apply (ranked_whole String.eqb String.eqb_eq)|].
  split; [apply (ranked_whole sameValueZero sameValueZero_spec)|].
  split; [apply (ranked_whole sameValueZero sameValueZero_spec)|].
  split; [apply (ranked_whole String.eqb String.eqb_eq)|].
  apply (ranked_whole sameValueZero sameValueZero_spec).
Qed.

(** X7: when [getHours] gives hours below 24 (or [NaN]),
    [activityByHour] has at most 25 entries: one per hour of the day and
    one for invalid timestamps. *)
Theorem activityByHour_has_at_most_25_entries :
  forall getHours w (events : list AnalyticsEvent),
    (forall ts h, getHours ts = Some h -> h < 24) ->
    List.length (activityByHour (aggregate getHours w events)) <= 25.
Proof.
  intros getHours w events Hh.
  rewrite <- (length_map key).
  change 25 with
    (List.length (map formatHour (None :: map Some (seq 0 24)))).
  apply NoDup_incl_length.
  - apply activityByHour_keys_NoDup.
  - intros k Hk. apply in_map_iff in Hk. destruct Hk as [a [<- Ha]].
    apply activityByHour_keys in Ha. destruct Ha as [e [_ ->]].
    unfold hourLabel. apply in_map.
    destruct (getHours (timestamp e)) as [h|] eqn:G; [|now left].
    right. apply in_map, in_seq. specialize (Hh _ _ G). lia.
Qed.

(** * The query *)

(** X8: the query always reads all columns of [app_analytics], newest
    first.  Two non-empty dates give the two conditions
    [timestamp >= startDate] and [timestamp <= endDate], in that order,
    and a single non-empty date its one condition; a date that is the
    empty string is dropped like an absent one, and without usable dates
    (no filters, no dates, or empty dates) the query has no condition at
    all. *)
Theorem buildQuery_conditions :
  forall filters,
    (q_table (buildQuery filters) = "app_analytics"
     /\ q_select (buildQuery filters) = "*"
     /\ q_order (buildQuery filters) = ("timestamp", false))
    /\ (forall s e t,
          truthy_string s = true -> truthy_string e = true ->
          q_filters
            (buildQuery
               (Some {| startDate := Some s; endDate := Some e;
                        eventType := t |}))
          = [Gte "timestamp" s; Lte "timestamp" e])
    /\ (forall e t,
          buildQuery
            (Some {| startDate := Some ""; endDate := e; eventType := t |})
          = buildQuery
              (Some {| startDate := None; endDate := e; eventType := t |}))
    /\ (forall s t,
          buildQuery
            (Some {| startDate := s; endDate := Some ""; eventType := t |})
          = buildQuery
              (Some {| startDate := s; endDate := None; eventType := t |}))
    /\ (forall t,
          buildQuery
            (Some {| startDate := None; endDate := None; eventType := t |})
          = buildQuery None)
    /\ q_filters (buildQuery None) = []
    /\ (forall t,
          q_filters
            (buildQuery
               (Some {| startDate := None; endDate := None;
                        eventType := t |}))
          = [])
    /\ (forall t,
          q_filters
            (buildQuery
               (Some {| startDate := Some ""; endDate := Some "";
                        eventType := t |}))
          = [])
    /\ (forall s t,
          truthy_string s = true ->
          q_filters
            (buildQuery
               (Some {| startDate := Some s; endDate := None;
                        eventType := t |}))
          = [Gte "timestamp" s])
    /\ (forall e t,
          truthy_string e = true ->
          q_filters
            (buildQuery
               (Some {| startDate := None; endDate := Some e;
                        eventType := t |}))
          = [Lte "timestamp" e]).
Proof.
  intros filters.
  split; [|split; [|split; [|split; [|split; [|split; [|split;
    [|split; [|split]]]]]]]].
  - unfold buildQuery.
    destruct (given filters startDate), (given filters endDate);
      repeat split; reflexivity.
  - intros s e t Hs He. unfold buildQuery, given. simpl.
    rewrite Hs, He. reflexivity.
  - reflexivity.
  - reflexivity.
  - reflexivity.
  - reflexivity.
  - reflexivity.
  - reflexivity.
  - intros s t Hs. unfold buildQuery, given. simpl. rewrite Hs.
    reflexivity.
  - intros e t He. unfold buildQuery, given. simpl. rewrite He.
    reflexivity.
Qed.

(** X9: [getAnalyticsForDateRange] asks the store for the events with
    [timestamp >= startDate] and [timestamp <= endDate] and aggregates the
    rows it answers; with two empty strings it asks for all events, like
    [getAnalyticsStats] without filters. *)
Theorem getAnalyticsForDateRange_bounds :
  forall getHours w client,
    (forall s e rows,
        truthy_string s = true -> truthy_string e = true ->
        client {| q_table := "app_analytics"; q_select := "*";
                  q_order := ("timestamp", false);
                  q_filters := [Gte "timestamp" s; Lte "timestamp" e] |}
        = Resolved (Some rows) None ->
        getAnalyticsForDateRange getHours w client s e
        = Normal (aggregate getHours w rows))
    /\ getAnalyticsForDateRange getHours w client "" ""
       = getAnalyticsStats getHours w client None.
Proof.
  intros getHours w client. split; [|reflexivity].
  intros s e rows Hs He Hc.
  unfold getAnalyticsForDateRange, getAnalyticsStats, fetchEvents.
  unfold buildQuery, given. simpl. rewrite Hs, He. simpl.
  unfold addFilter. simpl. rewrite Hc. reflexivity.
Qed.

(** * Event tracking *)

Lemma getItem_setItem (st : Storage) (name value : string) :
  getItem (setItem st name value) name = Some value.
Proof.
  induction st as [|[k v] st IH]; simpl.
  - now rewrite String.eqb_refl.
  - destruct (String.eqb k name) eqn:E; simpl; rewrite E; auto.
Qed.

Lemma newDeviceId_truthy (w : World) :
  truthyItem (Some (newDeviceId w)) = Some (newDeviceId w).
Proof. reflexivity. Qed.

Lemma truthyItem_Some (o : option string) (d : string) :
  truthyItem o = Some d -> o = Some d /\ truthy_string d = true.
Proof.
  unfold truthyItem. destruct o as [v|]; [|discriminate].
  destruct (truthy_string v) eqn:T; [|discriminate].
  intros H. inversion H. subst. tauto.
Qed.

Lemma deviceIdOf_truthy (win : Window) (w : World) :
  truthy_string (deviceIdOf win w) = true.
Proof.
  unfold deviceIdOf.
  destruct (truthyItem (getItem (localStorage win) "device_id")) as [d|]
    eqn:T; [|reflexivity].
  now apply truthyItem_Some in T.
Qed.

(** The id a call works with is the one later calls find in storage. *)
Lemma remembering_window (win : Window) (w : World) :
  window w = Some win ->
  exists win',
    window (remembering win w) = Some win'
    /\ pathname win' = pathname win
    /\ truthyItem (getItem (localStorage win') "device_id")
       = Some (deviceIdOf win w).
Proof.
  intros Hw. unfold remembering, deviceIdOf.
  destruct (truthyItem (getItem (localStorage win) "device_id")) as [d|]
    eqn:T.
  - exists win. tauto.
  - eexists. split; [reflexivity|]. split; [reflexivity|]. simpl.
    rewrite getItem_setItem. apply newDeviceId_truthy.
Qed.

Lemma currentDeviceId_in_window (win : Window) (w : World) :
  window w = Some win ->
  currentDeviceId w = (Normal (Some (deviceIdOf win w)), remembering win w).
Proof.
  intros Hw. unfold currentDeviceId, deviceIdOf, remembering. rewrite Hw.
  destruct (truthyItem (getItem (localStorage win) "device_id")) as [d|]
    eqn:T; [reflexivity|].
  unfold andThen, generateDeviceId, andThen, theWindow. rewrite Hw, T.
  unfold storeItem, andThen, theWindow. rewrite Hw. reflexivity.
Qed.

(** The row a call sends from a world with a window. *)
Lemma trackEvent_in_window (eventType : string) (path : option string)
  (meta : option jsobject) (w : World) (win : Window) (u : option string) :
  window w = Some win ->
  auth w = Session u ->
  insertRaises w = None ->
  trackEvent eventType path meta w
  = (Normal tt,
     withSent
       (sent w
        ++ [{| row_user_id := truthyItem u;
               row_device_id := Some (deviceIdOf win w);
               row_event_type := eventType;
               row_path := match truthyItem path with
                           | Some p => p
                           | None => pathname win
                           end;
               row_meta := meta;
               row_timestamp := isoNow w |}])
       (remembering win w)).
Proof.
  intros Hw Ha Hi.
  destruct (remembering_window win w Hw) as [win' [Hw' [Hp _]]].
  unfold trackEvent, tryCatchA, andThen at 1, getUser. rewrite Ha.
  unfold andThen at 1. rewrite (currentDeviceId_in_window win w Hw).
  assert (Hi' : insertRaises (remembering win w) = None).
  { unfold remembering. now destruct (truthyItem _). }
  assert (Hs' : sent (remembering win w) = sent w).
  { unfold remembering. now destruct (truthyItem _). }
  assert (Ht' : isoNow (remembering win w) = isoNow w).
  { unfold remembering. now destruct (truthyItem _). }
  unfold pathOrLocation. destruct (truthyItem path) as [p|].
  - unfold andThen, ret, toISOString, insert. rewrite Hi', Hs', Ht'.
    reflexivity.
  - unfold andThen, ret, theWindow, toISOString, insert.
    rewrite Hw', Hi', Hs', Ht', Hp. reflexivity.
Qed.

(** The row a call with a truthy path sends where there is no window. *)
Lemma trackEvent_without_window (eventType : string) (path : option string)
  (meta : option jsobject) (w : World) (u : option string) (p : string) :
  window w = None ->
  auth w = Session u ->
  insertRaises w = None ->
  truthyItem path = Some p ->
  trackEvent eventType path meta w
  = (Normal tt,
     withSent
       (sent w
        ++ [{| row_user_id := truthyItem u;
               row_device_id := None;
               row_event_type := eventType;
               row_path := p;
               row_meta := meta;
               row_timestamp := isoNow w |}]) w).
Proof.
  intros Hw Ha Hi Hp.
  unfold trackEvent, tryCatchA, andThen, getUser, currentDeviceId,
    pathOrLocation.
  rewrite Ha, Hw, Hp. unfold ret, toISOString, insert. rewrite Hi.
  reflexivity.
Qed.

(** What a call does when it cannot send. *)
Lemma trackEvent_fails (eventType : string) (path : option string)
  (meta : option jsobject) (w : World) :
  delivers path w = false ->
  exists w',
    trackEvent eventType path meta w = (Normal tt, w')
    /\ sent w' = sent w
    /\ logged w' = logged w ++ ["Failed to track event:"].
Proof.
  unfold delivers. intros Hd.
  unfold trackEvent, tryCatchA, andThen at 1, getUser.
  destruct (auth w) as [u|err] eqn:Ha.
  - destruct (window w) as [win|] eqn:Hw.
    + destruct (insertRaises w) as [err|] eqn:Hi; [|discriminate].
      destruct (remembering_window win w Hw) as [win' [Hw' [Hp _]]].
      unfold andThen at 1. rewrite (currentDeviceId_in_window win w Hw).
      assert (Hi' : insertRaises (remembering win w) = Some err).
      { unfold remembering. now destruct (truthyItem _). }
      assert (Hs' : sent (remembering win w) = sent w).
      { unfold remembering. now destruct (truthyItem _). }
      assert (Hl' : logged (remembering win w) = logged w).
      { unfold remembering. now destruct (truthyItem _). }
      unfold pathOrLocation. destruct (truthyItem path) as [p|];
        unfold andThen, ret, theWindow, toISOString, insert, consoleError;
        rewrite ?Hw', ?Hi'; eexists; (split; [reflexivity|]); simpl;
        rewrite Hs', Hl'; tauto.
    + unfold andThen at 1, currentDeviceId. rewrite Hw.
      unfold pathOrLocation.
      destruct (truthyItem path) as [p|] eqn:Hp.
      * destruct (insertRaises w) as [err|] eqn:Hi; [|discriminate].
        unfold andThen, ret, toISOString, insert, consoleError.
        rewrite Hi. eexists. split; [reflexivity|]. simpl. tauto.
      * unfold andThen, theWindow, consoleError. rewrite Hw.
        eexists. split; [reflexivity|]. simpl. tauto.
  - unfold consoleError. eexists. split; [reflexivity|]. simpl. tauto.
Qed.

Lemma remembering_fields (win : Window) (w : World) :
  sent (remembering win w) = sent w
  /\ logged (remembering win w) = logged w
  /\ auth (remembering win w) = auth w
  /\ insertRaises (remembering win w) = insertRaises w.
Proof. unfold remembering. now destruct (truthyItem _). Qed.

(** X10: [trackEvent] never rejects.  It sends exactly one row, carrying
    the event type, the meta and the time of the call, when the session
    can be read, the insert does not throw and there is a window or a
    truthy path; otherwise it sends nothing and logs one error. *)
Theorem trackEvent_sends_one_row_or_logs :
  forall eventType path meta w,
  exists w',
    trackEvent eventType path meta w = (Normal tt, w')
    /\ (delivers path w = true ->
        logged w' = logged w
        /\ exists r,
             sent w' = sent w ++ [r]
             /\ row_event_type r = eventType
             /\ row_meta r = meta
             /\ row_timestamp r = isoNow w)
    /\ (delivers path w = false ->
        sent w' = sent w
        /\ logged w' = logged w ++ ["Failed to track event:"]).
Proof.
  intros eventType path meta w.
  destruct (delivers path w) eqn:Hd.
  - unfold delivers in Hd.
    destruct (auth w) as [u|] eqn:Ha; [|discriminate].
    destruct (insertRaises w) eqn:Hi; [discriminate|].
    destruct (window w) as [win|] eqn:Hw.
    + eexists. split;
        [apply (trackEvent_in_window _ _ _ _ win u Hw Ha Hi)|].
      split; [|discriminate]. intros _. simpl.
      split; [apply remembering_fields|].
      eexists. split; [reflexivity|repeat split; reflexivity].
    + destruct (truthyItem path) as [p|] eqn:Hp; [|discriminate].
      eexists. split;
        [apply (trackEvent_without_window _ _ _ _ u p Hw Ha Hi Hp)|].
      split; [|discriminate]. intros _. simpl.
      split; [reflexivity|].
      eexists. split; [reflexivity|repeat split; reflexivity].
  - destruct (trackEvent_fails eventType path meta w Hd)
      as [w' [Ht [Hs Hl]]].
    exists w'. split; [exact Ht|]. split; [discriminate|]. tauto.
Qed.

(** X11: where there is no [window], the calls that pass no path are
    lost: [trackSearch], [trackClick] and [trackErrorCodeView] send
    nothing and log an error, while [trackPageView] with a non-empty path
    still sends its row, without device id. *)
Theorem tracking_without_window :
  forall w,
    window w = None ->
    (forall code brand,
        sent (snd (trackSearch code brand w)) = sent w
        /\ fst (trackSearch code brand w) = Normal tt)
    /\ (forall label meta,
          sent (snd (trackClick label meta w)) = sent w
          /\ fst (trackClick label meta w) = Normal tt)
    /\ (forall code systemName,
          sent (snd (trackErrorCodeView code systemName w)) = sent w
          /\ fst (trackErrorCodeView code systemName w) = Normal tt)
    /\ (forall p u,
          truthy_string p = true ->
          auth w = Session u ->
          insertRaises w = None ->
          sent (snd (trackPageView p w))
          = sent w
            ++ [{| row_user_id := truthyItem u; row_device_id := None;
                   row_event_type := "page_view"; row_path := p;
                   row_meta := None; row_timestamp := isoNow w |}]).
Proof.
  intros w Hw.
  assert (Hlost : forall et m,
             sent (snd (trackEvent et None m w)) = sent w
             /\ fst (trackEvent et None m w) = Normal tt).
  { intros et m.
    assert (Hd : delivers None w = false).
    { unfold delivers. rewrite Hw.
      destruct (auth w); [|reflexivity].
      now destruct (insertRaises w). }
    destruct (trackEvent_fails et None m w Hd) as [w' [Ht [Hs _]]].
    rewrite Ht. simpl. tauto. }
  split; [intros; apply Hlost|].
  split; [intros; apply Hlost|].
  split; [intros; apply Hlost|].
  intros p u Hp Ha Hi. unfold trackPageView.
  rewrite (trackEvent_without_window _ _ _ _ u p Hw Ha Hi);
    [reflexivity|].
  unfold truthyItem. now rewrite Hp.
Qed.

(** X12: in a browser the device id is stable: the row of a call carries
    a non-empty device id, which is kept in [localStorage], and every
    later call that finds this storage sends its row with the same
    id. *)
Theorem device_id_is_stable_across_calls :
  forall eventType path meta w win u,
    window w = Some win ->
    auth w = Session u ->
    insertRaises w = None ->
    exists d r,
      truthy_string d = true
      /\ sent (snd (trackEvent eventType path meta w)) = sent w ++ [r]
      /\ row_device_id r = Some d
      /\ forall eventType2 path2 meta2 w2,
           window w2 = window (snd (trackEvent eventType path meta w)) ->
           delivers path2 w2 = true ->
           exists r2,
             sent (snd (trackEvent eventType2 path2 meta2 w2))
             = sent w2 ++ [r2]
             /\ row_device_id r2 = Some d.
Proof.
  intros eventType path meta w win u Hw Ha Hi.
  rewrite (trackEvent_in_window _ _ _ _ win u Hw Ha Hi). simpl.
  destruct (remembering_window win w Hw) as [win' [Hw' [_ Hd]]].
  exists (deviceIdOf win w). eexists.
  split; [apply deviceIdOf_truthy|].
  split; [reflexivity|].
  split; [reflexivity|].
  intros et2 p2 m2 w2 Hw2 Hd2. rewrite Hw' in Hw2.
  unfold delivers in Hd2.
  destruct (auth w2) as [u2|] eqn:Ha2; [|discriminate].
  destruct (insertRaises w2) eqn:Hi2; [discriminate|].
  rewrite (trackEvent_in_window _ _ _ _ win' u2 Hw2 Ha2 Hi2). simpl.
  eexists. split; [reflexivity|]. simpl.
  unfold deviceIdOf at 1. now rewrite Hd.
Qed.

(** X13: [generateDeviceId] throws where there is no [window].  With a
    window it returns a non-empty id: the stored one, leaving the world
    as it is, when that is non-empty, and else a new one that it stores;
    called again on the storage it left, it returns the same id and
    writes nothing. *)
Theorem generateDeviceId_is_idempotent :
  forall w,
    (window w = None -> generateDeviceId w = (Throw referenceError, w))
    /\ forall win,
         window w = Some win ->
         exists d w1,
           generateDeviceId w = (Normal d, w1)
           /\ truthy_string d = true
           /\ (forall d0,
                  getItem (localStorage win) "device_id" = Some d0 ->
                  truthy_string d0 = true -> d = d0 /\ w1 = w)
           /\ forall w2,
                window w2 = window w1 ->
                generateDeviceId w2 = (Normal d, w2).
Proof.
  intros w. split.
  - intros Hw. unfold generateDeviceId, andThen, theWindow.
    now rewrite Hw.
  - intros win Hw.
    destruct (remembering_window win w Hw) as [win' [Hw' [_ Hd]]].
    exists (deviceIdOf win w), (remembering win w).
    split; [|split; [apply deviceIdOf_truthy|split]].
    + unfold generateDeviceId, andThen at 1, theWindow, deviceIdOf,
        remembering. rewrite Hw.
      destruct (truthyItem (getItem (localStorage win) "device_id"));
        [reflexivity|].
      unfold andThen, storeItem, andThen, theWindow. rewrite Hw.
      reflexivity.
    + intros d0 Hg Ht. unfold deviceIdOf, remembering, truthyItem.
      rewrite Hg, Ht. tauto.
    + intros w2 Hw2. rewrite Hw' in Hw2.
      unfold generateDeviceId, andThen, theWindow. rewrite Hw2, Hd.
      reflexivity.
Qed.

(** * From tracking to statistics *)

Lemma countBy_single {K E : Type} (same : K -> K -> bool)
  (sel : E -> option K) (e : E) :
  countBy same sel [e]
  = match sel e with
    | Some k => [(k, 1)]
    | None => []
    end.
Proof. unfold countBy. simpl. now destruct (sel e). Qed.

Lemma ranked_single {K E : Type} (same : K -> K -> bool)
  (sel : E -> option K) (e : E) (n : nat) :
  ranked (S n) (entries (countBy same sel [e]))
  = match sel e with
    | Some k => [mkCounted k 1]
    | None => []
    end.
Proof.
  rewrite countBy_single. unfold ranked.
  destruct (sel e); simpl; now rewrite ?firstn_nil.
Qed.

Lemma getProp_setProp (o : jsobject) (k name : string) (v : jsval) :
  getProp (setProp o k v) name
  = if String.eqb k name then Some v else getProp o name.
Proof.
  induction o as [|[k0 v0] o IH]; simpl; [reflexivity|].
  destruct (String.eqb k0 k) eqn:E; simpl.
  - apply String.eqb_eq in E. subst k0.
    now destruct (String.eqb k name).
  - rewrite IH. destruct (String.eqb k0 name) eqn:E0; [|reflexivity].
    apply String.eqb_eq in E0. subst k0.
    rewrite String.eqb_sym, E. reflexivity.
Qed.

Lemma getProp_spread (o : jsobject) (extra : option jsobject)
  (name : string) :
  getProp (spread o extra) name
  = match assigned extra name with
    | Some v => Some v
    | None => getProp o name
    end.
Proof.
  destruct extra as [m|]; [|reflexivity]. simpl.
  induction m as [|[k v] m IH] using rev_ind; [reflexivity|].
  rewrite fold_left_app, rev_app_distr. simpl.
  rewrite getProp_setProp, IH. now destruct (String.eqb k name).
Qed.

(** X14: a search tracked in a browser is counted once it is stored: its
    row is a search event keyed by its code, it adds one to the
    occurrences of that code, and alone it gives [totalSearches = 1] and
    one entry for the code, and one in [topBrands] for a non-empty brand.
    A search for the empty code is sent too, but never counted. *)
Theorem tracked_search_is_counted :
  forall getHours cw w win u code brand rowId,
    window w = Some win ->
    auth w = Session u ->
    insertRaises w = None ->
    exists r,
      sent (snd (trackSearch code brand w)) = sent w ++ [r]
      /\ searchKey (stored rowId r)
         = (if truthy_string code then Some (JStr code) else None)
      /\ (truthy_string code = true ->
          (forall rows,
              occurrences sameValueZero searchKey (JStr code)
                (rows ++ [stored rowId r])
              = S (occurrences sameValueZero searchKey (JStr code) rows))
          /\ topSearchedCodes (aggregate getHours cw [stored rowId r])
             = [mkCounted (JStr code) 1]
          /\ totalSearches (aggregate getHours cw [stored rowId r]) = 1)
      /\ (truthy_string code = false ->
          totalSearches (aggregate getHours cw [stored rowId r]) = 0)
      /\ (forall b,
            brand = Some b -> truthy_string b = true ->
            topBrands (aggregate getHours cw [stored rowId r])
            = [mkCounted (JStr b) 1])
      /\ (brand = None ->
          topBrands (aggregate getHours cw [stored rowId r]) = []).
Proof.
  intros getHours cw w win u code brand rowId Hw Ha Hi.
  unfold trackSearch.
  rewrite (trackEvent_in_window _ _ _ _ win u Hw Ha Hi). simpl.
  eexists. split; [reflexivity|].
  set (ev := stored rowId _).
  assert (Hk : searchKey ev
               = if truthy_string code then Some (JStr code) else None).
  { unfold searchKey, metaKey, metaProp, ev, stored, searchMeta. simpl.
    destruct brand; simpl; now destruct (truthy_string code). }
  split; [exact Hk|].
  split; [|split; [|split]].
  - intros Hc. rewrite Hc in Hk. split; [|split].
    + intros rows. rewrite occurrences_snoc. unfold selects.
      rewrite Hk. simpl. rewrite String.eqb_refl. lia.
    + change (topSearchedCodes (aggregate getHours cw [ev]))
        with (ranked 10 (entries (countBy sameValueZero searchKey [ev]))).
      now rewrite ranked_single, Hk.
    + change (totalSearches (aggregate getHours cw [ev]))
        with (sumCounts
                (ranked 10 (entries (countBy sameValueZero searchKey [ev])))).
      now rewrite ranked_single, Hk.
  - intros Hc. rewrite Hc in Hk.
    change (totalSearches (aggregate getHours cw [ev]))
      with (sumCounts
              (ranked 10 (entries (countBy sameValueZero searchKey [ev])))).
    now rewrite ranked_single, Hk.
  - intros b -> Hb.
    change (topBrands (aggregate getHours cw [ev]))
      with (ranked 10 (entries (countBy sameValueZero brandKey [ev]))).
    rewrite ranked_single.
    unfold brandKey, metaKey, metaProp, ev, stored, searchMeta. simpl.
    now rewrite Hb.
  - intros ->.
    change (topBrands (aggregate getHours cw [ev]))
      with (ranked 10 (entries (countBy sameValueZero brandKey [ev]))).
    now rewrite ranked_single.
Qed.

(** X15: every row [trackEvent] sends from a browser whose location is
    non-empty has a non-empty path, the given one or else the location:
    once stored it is counted in [pageViews] under that path, whatever
    its event type. *)
Theorem every_tracked_event_counts_as_a_page_view :
  forall getHours cw eventType path meta w win u rowId,
    window w = Some win ->
    auth w = Session u ->
    insertRaises w = None ->
    truthy_string (pathname win) = true ->
    exists r,
      sent (snd (trackEvent eventType path meta w)) = sent w ++ [r]
      /\ row_path r = pathOr path win
      /\ pathKey (stored rowId r) = Some (pathOr path win)
      /\ pageViews (aggregate getHours cw [stored rowId r])
         = [mkCounted (pathOr path win) 1].
Proof.
  intros getHours cw eventType path meta w win u rowId Hw Ha Hi Hp.
  rewrite (trackEvent_in_window _ _ _ _ win u Hw Ha Hi). simpl.
  eexists. split; [reflexivity|].
  set (ev := stored rowId _).
  assert (Hk : pathKey ev = Some (pathOr path win)).
  { unfold pathKey, ev, stored, pathOr. simpl.
    destruct (truthyItem path) as [p|] eqn:T.
    - apply truthyItem_Some in T. destruct T as [_ T]. now rewrite T.
    - now rewrite Hp. }
  split; [reflexivity|]. split; [exact Hk|].
  change (pageViews (aggregate getHours cw [ev]))
    with (ranked 10 (entries (countBy String.eqb pathKey [ev]))).
  now rewrite ranked_single, Hk.
Qed.

(** X16: an error-code view tracked in a browser is counted once it is
    stored, in [errorCodeFrequency] under its code when that is not
    empty, and neither as a search nor under a brand. *)
Theorem tracked_error_code_view_is_counted :
  forall getHours cw w win u code systemName rowId,
    window w = Some win ->
    auth w = Session u ->
    insertRaises w = None ->
    exists r,
      sent (snd (trackErrorCodeView code systemName w)) = sent w ++ [r]
      /\ errorKey (stored rowId r)
         = (if truthy_string code then Some (JStr code) else None)
      /\ searchKey (stored rowId r) = None
      /\ brandKey (stored rowId r) = None
      /\ (truthy_string code = true ->
          errorCodeFrequency (aggregate getHours cw [stored rowId r])
          = [mkCounted (JStr code) 1]
          /\ totalSearches (aggregate getHours cw [stored rowId r]) = 0).
Proof.
  intros getHours cw w win u code systemName rowId Hw Ha Hi.
  unfold trackErrorCodeView.
  rewrite (trackEvent_in_window _ _ _ _ win u Hw Ha Hi). simpl.
  eexists. split; [reflexivity|].
  set (ev := stored rowId _).
  assert (Hk : errorKey ev
               = if truthy_string code then Some (JStr code) else None).
  { unfold errorKey, metaKey, metaProp, ev, stored. simpl.
    now destruct (truthy_string code). }
  split; [exact Hk|]. split; [reflexivity|]. split; [reflexivity|].
  intros Hc. rewrite Hc in Hk. split.
  - change (errorCodeFrequency (aggregate getHours cw [ev]))
      with (ranked 15 (entries (countBy sameValueZero errorKey [ev]))).
    now rewrite ranked_single, Hk.
  - reflexivity.
Qed.

(** X17: the meta of a click is [{ label, ...meta }]: a property of the
    given meta wins over the label argument, every other property of the
    given meta is kept, and without a [label] of its own the click
    carries the argument.  A click is never counted as a search. *)
Theorem tracked_click_meta :
  forall w win u label meta rowId,
    window w = Some win ->
    auth w = Session u ->
    insertRaises w = None ->
    exists r o,
      sent (snd (trackClick label meta w)) = sent w ++ [r]
      /\ row_event_type r = "click"
      /\ row_meta r = Some o
      /\ (forall name,
            getProp o name
            = match assigned meta name with
              | Some v => Some v
              | None =>
                  if String.eqb "label" name then Some (JStr label)
                  else None
              end)
      /\ (assigned meta "label" = None ->
          getProp o "label" = Some (JStr label))
      /\ searchKey (stored rowId r) = None.
Proof.
  intros w win u label meta rowId Hw Ha Hi. unfold trackClick.
  rewrite (trackEvent_in_window _ _ _ _ win u Hw Ha Hi). simpl.
  eexists. eexists. split; [reflexivity|]. split; [reflexivity|].
  split; [reflexivity|]. split; [|split].
  - intros name. now rewrite getProp_spread.
  - intros Hnone. now rewrite getProp_spread, Hnone.
  - reflexivity.
Qed.

(** * The further properties at concrete inputs *)

Lemma utcHours_below_24 (ts : string) (h : nat) :
  utcHours ts = Some h -> h < 24.
Proof.
  unfold utcHours.
  destruct (String.get 11 ts) as [a|]; [|discriminate].
  destruct (String.get 12 ts) as [b|]; [|discriminate].
  destruct (digitOf a) as [x|]; [|discriminate].
  destruct (digitOf b) as [y|]; [|discriminate].
  destruct (Nat.ltb_spec (10 * x + y) 24) as [Hlt|Hge]; [|discriminate].
  intros H. inversion H. subst. exact Hlt.
Qed.

Lemma ranked_lists_keep_the_most_frequent_witness :
  occurrences sameValueZero searchKey (JStr "E11") twelveEvents <= 1.
Proof.
  destruct (ranked_lists_keep_the_most_frequent utcHours rootWeight
              twelveEvents) as [_ [H _]].
  apply (H (mkCounted (JStr "E01") 1) (JStr "E11")).
  - left. reflexivity.
  - vm_compute. intuition discriminate.
Defined.

Lemma lists_under_their_cap_are_whole_witness :
  covers pathKey twoPaths (pageViews (aggregate utcHours rootWeight twoPaths))
  /\ sumCounts (pageViews (aggregate utcHours rootWeight twoPaths)) = 2.
Proof.
  destruct (lists_under_their_cap_are_whole utcHours rootWeight twoPaths)
    as [H _].
  apply H. exists ["/a"; "/b"]. split; [simpl; lia|].
  intros e k [<-|[<-|[]]] Hk; inversion Hk; simpl; tauto.
Defined.

Lemma activityByHour_has_at_most_25_entries_witness :
  List.length (activityByHour (aggregate utcHours rootWeight threeHours))
  <= 25.
Proof.
  apply activityByHour_has_at_most_25_entries. exact utcHours_below_24.
Defined.

Lemma buildQuery_conditions_witness :
  q_filters (buildQuery (between (Some "2024-03-01") (Some "2024-03-31")))
  = [Gte "timestamp" "2024-03-01"; Lte "timestamp" "2024-03-31"].
Proof.
  destruct (buildQuery_conditions None) as [_ [H _]].
  apply (H "2024-03-01" "2024-03-31" None); reflexivity.
Defined.

Lemma getAnalyticsForDateRange_bounds_witness :
  getAnalyticsForDateRange utcHours rootWeight (serving threeHours)
    "2024-03-01" "2024-03-31"
  = Normal (aggregate utcHours rootWeight threeHours).
Proof.
  destruct (getAnalyticsForDateRange_bounds utcHours rootWeight
              (serving threeHours)) as [H _].
  apply H; reflexivity.
Defined.

Lemma trackEvent_sends_one_row_or_logs_witness :
  (exists w' r,
      trackEvent "click" None None browser = (Normal tt, w')
      /\ sent w' = [r] /\ row_event_type r = "click")
  /\ (exists w',
        trackEvent "click" None None server = (Normal tt, w')
        /\ sent w' = [] /\ logged w' = ["Failed to track event:"]).
Proof.
  split.
  - destruct (trackEvent_sends_one_row_or_logs "click" None None browser)
      as [w' [Ht [Hyes _]]].
    destruct (Hyes eq_refl) as [_ [r [Hs [He _]]]].
    exists w', r. split; [exact Ht|]. split; [exact Hs|exact He].
  - destruct (trackEvent_sends_one_row_or_logs "click" None None server)
      as [w' [Ht [_ Hno]]].
    destruct (Hno eq_refl) as [Hs Hl].
    exists w'. split; [exact Ht|]. split; [exact Hs|exact Hl].
Defined.

Lemma tracking_without_window_witness :
  sent (snd (trackSearch "E42" (Some "Acme") server)) = []
  /\ sent (snd (trackPageView "/home" server))
     = [{| row_user_id := None; row_device_id := None;
           row_event_type := "page_view"; row_path := "/home";
           row_meta := None;
           row_timestamp := "2024-03-05T12:00:00.000Z" |}].
Proof.
  destruct (tracking_without_window server eq_refl) as [Hs [_ [_ Hp]]].
  split.
  - apply Hs.
  - apply (Hp "/home" None); reflexivity.
Defined.

Lemma device_id_is_stable_across_calls_witness :
  exists d r,
    truthy_string d = true
    /\ sent (snd (trackEvent "click" None None browser)) = [r]
    /\ row_device_id r = Some d
    /\ exists r2,
         sent (snd (trackSearch "E42" None
                      (snd (trackEvent "click" None None browser))))
         = [r; r2]
         /\ row_device_id r2 = Some d.
Proof.
  destruct (device_id_is_stable_across_calls "click" None None browser
              browserWindow (Some "u1") eq_refl eq_refl eq_refl)
    as [d [r [Hd [Hs [Hr Hnext]]]]].
  exists d, r. split; [exact Hd|]. split; [exact Hs|]. split; [exact Hr|].
  destruct (Hnext "search" None (Some (searchMeta "E42" None))
              (snd (trackEvent "click" None None browser))
              eq_refl eq_refl) as [r2 [Hs2 Hr2]].
  exists r2. split; [|exact Hr2].
  unfold trackSearch. rewrite Hs2, Hs. reflexivity.
Defined.

Lemma generateDeviceId_is_idempotent_witness :
  exists d w1,
    generateDeviceId browser = (Normal d, w1)
    /\ generateDeviceId w1 = (Normal d, w1)
    /\ generateDeviceId server = (Throw referenceError, server).
Proof.
  destruct (generateDeviceId_is_idempotent browser) as [_ H].
  destruct (H browserWindow eq_refl) as [d [w1 [Hg [_ [_ Hagain]]]]].
  exists d, w1. split; [exact Hg|]. split; [now apply Hagain|].
  now apply (proj1 (generateDeviceId_is_idempotent server)).
Defined.

Lemma tracked_search_is_counted_witness :
  exists r,
    sent (snd (trackSearch "E42" (Some "Acme") browser)) = [r]
    /\ totalSearches (aggregate utcHours rootWeight [stored "1" r]) = 1
    /\ topBrands (aggregate utcHours rootWeight [stored "1" r])
       = [mkCounted (JStr "Acme") 1].
Proof.
  destruct (tracked_search_is_counted utcHours rootWeight browser
              browserWindow (Some "u1") "E42" (Some "Acme") "1"
              eq_refl eq_refl eq_refl)
    as [r [Hs [_ [Hyes [_ [Hb _]]]]]].
  exists r. split; [exact Hs|].
  split; [now apply Hyes|]. now apply (Hb "Acme").
Defined.

Lemma every_tracked_event_counts_as_a_page_view_witness :
  exists r,
    sent (snd (trackEvent "search" None None browser)) = [r]
    /\ pageViews (aggregate utcHours rootWeight [stored "1" r])
       = [mkCounted "/codes" 1].
Proof.
  destruct (every_tracked_event_counts_as_a_page_view utcHours rootWeight
              "search" None None browser browserWindow (Some "u1") "1"
              eq_refl eq_refl eq_refl eq_refl)
    as [r [Hs [_ [_ Hp]]]].
  exists r. split; [exact Hs|exact Hp].
Defined.

Lemma tracked_error_code_view_is_counted_witness :
  exists r,
    sent (snd (trackErrorCodeView "F28" "boiler" browser)) = [r]
    /\ errorCodeFrequency (aggregate utcHours rootWeight [stored "1" r])
       = [mkCounted (JStr "F28") 1].
Proof.
  destruct (tracked_error_code_view_is_counted utcHours rootWeight browser
              browserWindow (Some "u1") "F28" "boiler" "1"
              eq_refl eq_refl eq_refl)
    as [r [Hs [_ [_ [_ Hyes]]]]].
  exists r. split; [exact Hs|]. now apply Hyes.
Defined.

Lemma tracked_click_meta_witness :
  exists r o,
    sent (snd (trackClick "go" (Some [("brand", JStr "Acme")]) browser))
    = [r]
    /\ row_meta r = Some o
    /\ getProp o "label" = Some (JStr "go")
    /\ getProp o "brand" = Some (JStr "Acme").
Proof.
  destruct (tracked_click_meta browser browserWindow (Some "u1") "go"
              (Some [("brand", JStr "Acme")]) "1"
              eq_refl eq_refl eq_refl)
    as [r [o [Hs [_ [Hm [Hget [Hlabel _]]]]]]].
  exists r, o. split; [exact Hs|]. split; [exact Hm|].
  split; [now apply Hlabel|]. now rewrite Hget.
Defined.
